(** * Library management system (src/code.py): shallow embedding and properties

    The program is a terminal application over two JSON stores
    ([library_users.json], [library_books.json]).  Every operation reloads
    the store it works on, talks to the user through [input]/[print] and,
    when it mutates a record, writes the whole collection back.

    The embedding keeps that shape: a [world] carries the disk, the lines
    typed on the terminal, the printed events and today's date; operations
    are written in a small state-and-exit monad over it.  Pauses
    ([time.sleep]) and clearing the screen leave that state as it is and do
    not appear.

    The interpreter's own [str.lower], [str.strip], [str.isdigit] and [int]
    are parameters of the embedding (class [Python]): every property of the
    program below holds for whatever these four do, on text in any script and
    of any length. *)

From Stdlib Require Import ZArith Ascii String List Lia.
From stdpp Require Import base option list gmap strings.

Local Open Scope string_scope.
Local Open Scope list_scope.
Local Open Scope Z_scope.

(** ** Python strings

    A [str] is represented by the bytes of its UTF-8 encoding.  On that
    representation equality, emptiness and the substring test [q in s] are
    what they are on the text: the encoding is injective, and an encoded
    character never starts inside another one. *)
Module PyStr.

(** [s.startswith(p)] *)
Fixpoint startswith (p s : string) : bool :=
  match p, s with
  | EmptyString, _ => true
  | String a p', String b s' => (Ascii.eqb a b && startswith p' s')%bool
  | String _ _, EmptyString => false
  end.

(** [q in s]: [q] occurs in [s] as a contiguous substring. *)
Fixpoint contains (q s : string) : bool :=
  (startswith q s ||
   match s with
   | EmptyString => false
   | String _ s' => contains q s'
   end)%bool.

(** [not s] for a string: true exactly for the empty string. *)
Definition is_empty (s : string) : bool :=
  match s with EmptyString => true | _ => false end.

End PyStr.

(** The string methods whose result depends on the interpreter's Unicode
    tables (case mapping, white space, digits), and [int], which raises
    [ValueError] on a string it does not convert: one with a digit
    character that is not a decimal digit, or, by default, one of more than
    4300 digits.  [py_int s] is [None] when [int(s)] raises. *)
Class Python := {
  py_lower : string → string;     (* s.lower() *)
  py_strip : string → string;     (* s.strip() *)
  py_isdigit : string → bool;     (* s.isdigit() *)
  py_int : string → option Z      (* int(s) *)
}.

(** *** The four on ASCII text

    What the methods do on text made of ASCII characters only.  The
    examples at the end of the development run the program on such text;
    no property of the program depends on these definitions. *)
Module AsciiStr.

(** [c.lower()] for one character: ['A'..'Z'] move to ['a'..'z']. *)
Definition lower_ascii (c : ascii) : ascii :=
  let n := nat_of_ascii c in
  if ((65 <=? n)%nat && (n <=? 90)%nat)%bool then ascii_of_nat (n + 32) else c.

(** [s.lower()] *)
Fixpoint lower (s : string) : string :=
  match s with
  | EmptyString => EmptyString
  | String c s' => String (lower_ascii c) (lower s')
  end.

(** [c.isspace()]: TAB, LF, VT, FF, CR, FS, GS, RS, US and the space. *)
Definition isspace (c : ascii) : bool :=
  let n := nat_of_ascii c in
  (((9 <=? n)%nat && (n <=? 13)%nat) || ((28 <=? n)%nat && (n <=? 32)%nat))%bool.

(** [s.lstrip()] *)
Fixpoint lstrip (s : string) : string :=
  match s with
  | EmptyString => EmptyString
  | String c s' => if isspace c then lstrip s' else s
  end.

(** [s.rstrip()]: a character is dropped when it is white space and
    everything after it has been dropped. *)
Fixpoint rstrip (s : string) : string :=
  match s with
  | EmptyString => EmptyString
  | String c s' =>
      match rstrip s' with
      | EmptyString => if isspace c then EmptyString else String c EmptyString
      | r => String c r
      end
  end.

(** [s.strip()] *)
Definition strip (s : string) : string := rstrip (lstrip s).

Definition is_digit_ascii (c : ascii) : bool :=
  let n := nat_of_ascii c in ((48 <=? n)%nat && (n <=? 57)%nat)%bool.

Fixpoint all_digits (s : string) : bool :=
  match s with
  | EmptyString => true
  | String c s' => (is_digit_ascii c && all_digits s')%bool
  end.

(** [s.isdigit()]: at least one character, and all of them digits. *)
Definition isdigit (s : string) : bool :=
  match s with
  | EmptyString => false
  | _ => all_digits s
  end.

Fixpoint int_acc (acc : Z) (s : string) : Z :=
  match s with
  | EmptyString => acc
  | String c s' => int_acc (10 * acc + (Z.of_nat (nat_of_ascii c) - 48)) s'
  end.

(** The default of [sys.get_int_max_str_digits()]. *)
Definition max_str_digits : nat := 4300.

(** [int(s)] on a string of decimal digits; [None] for the [ValueError]
    that a string of more than [max_str_digits] digits gets. *)
Definition int (s : string) : option Z :=
  if (String.length s <=? max_str_digits)%nat then Some (int_acc 0 s) else None.

End AsciiStr.

Definition ascii_python : Python := {|
  py_lower := AsciiStr.lower;
  py_strip := AsciiStr.strip;
  py_isdigit := AsciiStr.isdigit;
  py_int := AsciiStr.int
|}.

(** ** Calendar dates (datetime.date)

    A date is its proleptic Gregorian ordinal (day 1 is 0001-01-01), the
    representation [date.toordinal] exposes; adding a [timedelta] of [k]
    days adds [k] to the ordinal.  [isoformat] renders [YYYY-MM-DD]. *)
Module PyDate.

Definition DI400Y : Z := 146097.
Definition DI100Y : Z := 36524.
Definition DI4Y : Z := 1461.

Definition days_in_month (leap : bool) (m : Z) : Z :=
  if m =? 2 then (if leap then 29 else 28)
  else if (m =? 4) || (m =? 6) || (m =? 9) || (m =? 11) then 30
  else 31.

(** Days of a common year that precede the first day of month [m]. *)
Definition days_before_month_common (m : Z) : Z :=
  match m with
  | 1 => 0 | 2 => 31 | 3 => 59 | 4 => 90 | 5 => 120 | 6 => 151
  | 7 => 181 | 8 => 212 | 9 => 243 | 10 => 273 | 11 => 304 | 12 => 334
  | _ => 365
  end.

(** [_ord2ymd]: ordinal to (year, month, day). *)
Definition ord2ymd (ordinal : Z) : Z * Z * Z :=
  let n := ordinal - 1 in
  let n400 := n / DI400Y in
  let n := n mod DI400Y in
  let n100 := n / DI100Y in
  let n := n mod DI100Y in
  let n4 := n / DI4Y in
  let n := n mod DI4Y in
  let n1 := n / 365 in
  let n := n mod 365 in
  let year := n400 * 400 + 1 + n100 * 100 + n4 * 4 + n1 in
  if (n1 =? 4) || (n100 =? 4) then (year - 1, 12, 31)
  else
    let leapyear := (n1 =? 3) && (negb (n4 =? 24) || (n100 =? 3)) in
    let month := Z.shiftr (n + 50) 5 in
    let preceding :=
      days_before_month_common month
      + (if (2 <? month) && leapyear then 1 else 0) in
    if n <? preceding then
      let month := month - 1 in
      let preceding := preceding - days_in_month leapyear month in
      (year, month, n - preceding + 1)
    else (year, month, n - preceding + 1).

Definition digit (d : Z) : ascii := ascii_of_nat (Z.to_nat (48 + d mod 10)).

(** ["%02d"] for a value below one hundred. *)
Definition fmt2 (v : Z) : string :=
  String (digit (v / 10)) (String (digit v) EmptyString).

(** ["%04d"] for a value below ten thousand. *)
Definition fmt4 (v : Z) : string :=
  String (digit (v / 1000)) (String (digit (v / 100)) (fmt2 v)).

(** [date.isoformat()] *)
Definition isoformat (ordinal : Z) : string :=
  let '(y, m, d) := ord2ymd ordinal in
  fmt4 y +:+ "-" +:+ fmt2 m +:+ "-" +:+ fmt2 d.

(** [d + timedelta(days=k)] *)
Definition add_days (ordinal k : Z) : Z := ordinal + k.

End PyDate.

(** ** Data model *)

Definition USERS_FILE : string := "library_users.json".
Definition BOOKS_FILE : string := "library_books.json".
(** How many days a book can be borrowed. *)
Definition BORROW_DURATION_DAYS : Z := 14.

(** A value of the users store: [{"password": ..., "role": ...}]. *)
Record user := mkUser {
  password : string;
  role : string
}.

(** A book record (a JSON object).  [borrower] and [due_date] are [None]
    for JSON [null] (what [book.get] also returns for a missing key);
    [summary] is [None] when the key is absent. *)
Record book := mkBook {
  id : Z;
  title : string;
  author : string;
  status : string;
  borrower : option string;
  due_date : option string;
  summary : option string
}.

(** What [json.load] yields for a store: the users store is an object keyed
    by username, the books store an array of book objects. *)
Inductive json_data :=
| JUsers (users : gmap string user)
| JBooks (books : list book).

(** The collection a caller of [load_data] goes on to use.  The stores follow
    the schema [initialize_data] writes; a store of the other shape is outside
    the program's inputs and is read here as the empty collection. *)
Definition as_users (d : json_data) : gmap string user :=
  match d with JUsers users => users | JBooks _ => ∅ end.
Definition as_books (d : json_data) : list book :=
  match d with JBooks books => books | JUsers _ => [] end.

(** Contents of an existing file of the disk: text that [json.load] rejects
    with [JSONDecodeError], or a serialized store.  (Files that cannot be
    opened or whose bytes are not text are not files of a [disk]; what
    [load_data] does on them is [load_data_handlers].) *)
Inductive file :=
| Corrupt
| Json (d : json_data).

(** ** Terminal events *)

(** The [input] prompts of the program. *)
Inductive prompt :=
| PUsername | PPassword | PSearchTerm | PCheckoutId | PReturnId
| PTitle | PAuthor | PSummary.

(** What the program writes to the terminal, one constructor per message of
    the source, with the values the message interpolates. *)
Inductive event :=
| Header (text : string)                        (* print_header *)
| Ask (p : prompt)                              (* input(prompt) *)
| ErrCorruptFile (filename : string)            (* load_data, line 47 *)
| ErrSaving (filename : string)                 (* save_data, line 59 *)
| Initializing (filename : string)              (* lines 66, 76 *)
| ErrNoUserData                                 (* line 124 *)
| LoginSuccessful (username : string)           (* line 136 *)
| LoginInvalid (remaining : nat)                (* line 141 *)
| TooManyAttempts                               (* line 144 *)
| Separator                                     (* line 146 *)
| ShowBook (b : book) (detailed : bool)         (* display_book *)
| NoBooks                                       (* line 170 *)
| TotalBooks (n : nat)                          (* line 175 *)
| NoBooksToSearch                               (* line 183 *)
| ErrEmptySearchTerm                            (* line 188 *)
| NoneMatching (query : string)                 (* line 199 *)
| FoundMatching (n : nat)                       (* line 201 *)
| ErrIdFormat                                   (* lines 222, 281 *)
| CheckedOut (book_title : string) (due : option string)   (* lines 237-238 *)
| ErrSaveCheckout                               (* line 240 *)
| Unavailable (book_title : string) (due : option string)  (* lines 243-244 *)
| ErrNoBookWithId (book_id : Z)                 (* line 248 *)
| ErrInvalidInput                               (* lines 251, 313 *)
| BorrowedHeading                               (* line 261 *)
| NothingCheckedOut                             (* line 273 *)
| NothingCheckedOutBy (username : string)       (* line 275 *)
| Returned (book_title : string) (original_borrower : option string) (* line 299 *)
| ErrSaveReturn                                 (* line 301 *)
| ErrBorrowedBy (who : option string)           (* line 303 *)
| AlreadyAvailable (book_title : string)        (* line 306 *)
| ErrNoBorrowedBookWithId (book_id : Z) (by_you : bool)    (* line 310 *)
| ErrEmptyTitleOrAuthor                         (* line 332 *)
| ErrDuplicate (existing_id : Z)                (* line 338 *)
| Added (book_title book_author : string) (new_id : Z)     (* line 354 *)
| ErrSaveAdd.                                   (* line 356 *)

(** ** The world and the monad of operations *)

(** [disk] maps the name of each existing file to its contents;
    [disk_writable] tells whether [open(filename, 'w')] succeeds (it raises
    [IOError] otherwise, leaving the file as it was); [keyboard] is the
    sequence of lines typed, [typed] counts the lines [input] has consumed;
    [screen] is what has been printed, oldest first; [today] is
    [date.today()] as an ordinal. *)
Record world := mkWorld {
  disk : gmap string file;
  disk_writable : bool;
  keyboard : nat → string;
  typed : nat;
  screen : list event;
  today : Z
}.

(** An operation either returns to its caller or ends the process
    ([exit()]). *)
Inductive outcome (A : Type) :=
| Ret (a : A)
| Exited.
Arguments Ret {A} a.
Arguments Exited {A}.

Definition M (A : Type) : Type := world → outcome A * world.

Definition ret {A} (a : A) : M A := fun w => (Ret a, w).

Definition bind {A B} (m : M A) (k : A → M B) : M B :=
  fun w =>
    match m w with
    | (Ret a, w') => k a w'
    | (Exited, w') => (Exited, w')
    end.

(** The monad structure, so that operations read [x ← c; k] and [c;; k]. *)
#[global] Instance M_ret : MRet M := @ret.
#[global] Instance M_bind : MBind M := fun A B k m => bind m k.
#[global] Instance M_fmap : FMap M := fun A B f m => bind m (fun a => ret (f a)).

(** [print(...)] *)
Definition emit (e : event) : M unit :=
  fun w => (Ret tt, mkWorld (disk w) (disk_writable w) (keyboard w) (typed w)
                            (screen w ++ [e]) (today w)).

(** [input(prompt)]: shows the prompt and reads the next line. *)
Definition input (p : prompt) : M string :=
  fun w => (Ret (keyboard w (typed w)),
            mkWorld (disk w) (disk_writable w) (keyboard w) (S (typed w))
                    (screen w ++ [Ask p]) (today w)).

(** [exit()] *)
Definition exit {A} : M A := fun w => (Exited, w).

(** [date.today()] *)
Definition date_today : M Z := fun w => (Ret (today w), w).

(** [os.path.exists(filename)] *)
Definition path_exists (filename : string) : M bool :=
  fun w => (Ret (bool_decide (is_Some (disk w !! filename))), w).

(** [with open(filename, 'w') as f: json.dump(data, f, indent=4)], raising
    [IOError] when the file cannot be opened for writing. *)
Definition write_json (filename : string) (data : json_data) : M bool :=
  fun w =>
    if disk_writable w
    then (Ret true, mkWorld (<[filename := Json data]> (disk w)) (disk_writable w)
                            (keyboard w) (typed w) (screen w) (today w))
    else (Ret false, w).

(** [print_header(title)] *)
Definition print_header (text : string) : M unit := emit (Header text).

(** ** Data handling functions *)

(** The empty default of a store: [{} if filename == USERS_FILE else []]. *)
Definition empty_default (filename : string) : json_data :=
  if String.eqb filename USERS_FILE then JUsers ∅ else JBooks [].

(** [load_data(filename)] on the files of a [disk].  A file that is missing
    gives the default; one that [json.load] rejects with [JSONDecodeError]
    gives the default after an error message.  The handler for
    [FileNotFoundError] (a file that vanishes between the test and the
    [open]) returns the same default and has no separate case here. *)
Definition load_data (filename : string) : M json_data :=
  fun w =>
    match disk w !! filename with
    | None => ret (empty_default filename) w
    | Some (Json d) => ret d w
    | Some Corrupt =>
        (emit (ErrCorruptFile filename);; ret (empty_default filename)) w
    end.

(** The exceptions the body of the [try] of [load_data] (lines 44-45) can
    raise: [open] fails with an [OSError] ([FileNotFoundError],
    [PermissionError]), reading bytes that are not text in the encoding
    of [open] fails with [UnicodeDecodeError], and [json.load] rejects text
    that is not JSON with [JSONDecodeError]. *)
Inductive load_error :=
| JSONDecodeError
| FileNotFoundError
| UnicodeDecodeError
| PermissionError.

(** What the body of the [try] yields: the value of [json.load], or an
    exception. *)
Inductive read_attempt :=
| Parsed (d : json_data)
| Raised (e : load_error).

(** How a call of [load_data] ends: it returns a collection, after the
    messages it printed, or an exception leaves it. *)
Inductive load_end :=
| Returns (printed : list event) (d : json_data)
| Propagates (e : load_error).

(** The [try]/[except] of [load_data] (lines 43-50), for a file that
    exists, given what the body yields: the two handlers are for
    [json.JSONDecodeError] and [FileNotFoundError]. *)
Definition load_data_handlers (filename : string) (a : read_attempt) : load_end :=
  match a with
  | Parsed d => Returns [] d
  | Raised JSONDecodeError =>
      Returns [ErrCorruptFile filename] (empty_default filename)
  | Raised FileNotFoundError => Returns [] (empty_default filename)
  | Raised e => Propagates e
  end.

(** What the body yields on a file of the disk. *)
Definition read_file (f : file) : read_attempt :=
  match f with
  | Corrupt => Raised JSONDecodeError
  | Json d => Parsed d
  end.

(** [save_data(filename, data)] *)
Definition save_data (filename : string) (data : json_data) : M bool :=
  ok ← write_json filename data;
  if (ok : bool) then ret true
  else emit (ErrSaving filename);; ret false.

(** The seed accounts of [initialize_data]. *)
Definition default_users : gmap string user :=
  <["admin" := mkUser "admin123" "librarian"]>
  (<["mridul" := mkUser "jamesbond007" "student"]>
  (<["test" := mkUser "test" "student"]> ∅)).

(** The seed catalog of [initialize_data]; the third book is seeded as
    checked out and due five days before [day]. *)
Definition default_books (day : Z) : list book :=
  [ mkBook 1 "1984" "George Orwell" "Available" None None
      (Some "A chilling portrait of a society under total surveillance and thought control.");
    mkBook 2 "Leonardo Da Vinci" "Walter Isacsson" "Available" None None
      (Some "An acclaimed biography exploring the life and mind of the ultimate Renaissance man, connecting his art and science.");
    mkBook 3 "Sapiens: A Brief History of Humankind" "Yuval Noah Harari"
      "Checked Out" (Some "student1")
      (Some (PyDate.isoformat (PyDate.add_days day (-5))))
      (Some "An exploration of human history from the Stone Age to the present.");
    mkBook 4 "Dune" "Frank Herbert" "Available" None None
      (Some "Epic science fiction novel set on the desert planet Arrakis.") ].

(** [initialize_data()]: create the default files if they do not exist. *)
Definition initialize_data : M unit :=
  have_users ← path_exists USERS_FILE;
  (if (have_users : bool) then ret tt
   else emit (Initializing USERS_FILE);;
        _ ← save_data USERS_FILE (JUsers default_users); ret tt);;
  have_books ← path_exists BOOKS_FILE;
  if (have_books : bool) then ret tt
  else emit (Initializing BOOKS_FILE);;
       day ← date_today;
       _ ← save_data BOOKS_FILE (JBooks (default_books day)); ret tt.

(** Proves [x ∉ [a; b; ...]] for a concrete [x] that differs from each
    element. *)
Ltac not_in_list :=
  let H := fresh in
  intros H;
  repeat (apply elem_of_cons in H as [H | H]; [discriminate H |]);
  by apply elem_of_nil in H.

(** ** The program over the interpreter's string functions *)
Section Library.

Context {py : Python}.

(** ** Core logic *)

(** The [while attempts > 0] loop of [login], entered with [attempts]
    tries left.  The result is [Some (username, role)] for the tuple the
    source returns, [None] for its final [return None, None]. *)
Fixpoint login_loop (attempts : nat) (users : gmap string user)
  : M (option (string * string)) :=
  match attempts with
  | O => ret None
  | S remaining =>
      username ← py_strip <$> input PUsername;
      pass ← py_strip <$> input PPassword;
      let failed : M (option (string * string)) :=
        emit (LoginInvalid remaining);;
        match remaining with
        | O => emit TooManyAttempts;; exit
        | S _ => emit Separator;; login_loop remaining users
        end in
      match users !! username with
      | Some user_data =>
          if String.eqb (password user_data) pass
          then emit (LoginSuccessful username);;
               ret (Some (username, role user_data))
          else failed
      | None => failed
      end
  end.

(** [login()] *)
Definition login : M (option (string * string)) :=
  print_header "University Library Login";;
  users ← as_users <$> load_data USERS_FILE;
  if (size users =? 0)%nat
  then emit ErrNoUserData;; exit
  else login_loop 3 users.

(** [display_book(book, detailed)] *)
Definition display_book (b : book) (detailed : bool) : M unit :=
  emit (ShowBook b detailed).

(** [for book in books: display_book(book, detailed)] *)
Fixpoint display_each (books : list book) (detailed : bool) : M unit :=
  match books with
  | [] => ret tt
  | b :: rest => display_book b detailed;; display_each rest detailed
  end.

(** [view_all_books()] *)
Definition view_all_books : M unit :=
  print_header "Library Catalog";;
  books ← as_books <$> load_data BOOKS_FILE;
  match books with
  | [] => emit NoBooks
  | _ => display_each books false;; emit (TotalBooks (length books))
  end.

(** The test of the search loop (lines 193-195) for one book. *)
Definition matches_query (query : string) (b : book) : bool :=
  PyStr.contains query (py_lower (title b))
  || PyStr.contains query (py_lower (author b))
  || PyStr.contains query (py_lower (default "" (summary b))).

(** The search loop: the books that match, in the order of [books]. *)
Fixpoint search_loop (query : string) (books : list book) : list book :=
  match books with
  | [] => []
  | b :: rest =>
      if matches_query query b then b :: search_loop query rest
      else search_loop query rest
  end.

(** [search_books()] *)
Definition search_books : M unit :=
  print_header "Search Books";;
  books ← as_books <$> load_data BOOKS_FILE;
  match books with
  | [] => emit NoBooksToSearch
  | _ =>
      query ← (fun line => py_strip (py_lower line)) <$> input PSearchTerm;
      if PyStr.is_empty query then emit ErrEmptySearchTerm
      else
        let results := search_loop query books in
        match results with
        | [] => emit (NoneMatching query)
        | _ => emit (FoundMatching (length results));; display_each results true
        end
  end.

(** [book.get("borrower") == username] *)
Definition borrowed_by (b : book) (username : string) : bool :=
  match borrower b with
  | Some who => String.eqb who username
  | None => false
  end.

(** The book after lines 231-234: checked out by [username], due on [due]. *)
Definition check_out (b : book) (username : string) (due : Z) : book :=
  mkBook (id b) (title b) (author b) "Checked Out" (Some username)
         (Some (PyDate.isoformat due)) (summary b).

(** The book after lines 294-296. *)
Definition give_back (b : book) : book :=
  mkBook (id b) (title b) (author b) "Available" None None (summary b).

(** The [for book in books] loop of [checkout_book] (lines 227-245).
    [before] holds the books already passed over, [rest] those still to
    visit; the loop stops at the first book whose id is [book_id].  The
    result is [book_found] and the list [books] as the loop leaves it in
    memory. *)
Fixpoint checkout_loop (username : string) (book_id : Z)
    (before rest : list book) : M (bool * list book) :=
  match rest with
  | [] => ret (false, before)
  | b :: after =>
      if id b =? book_id then
        if String.eqb (status b) "Available" then
          day ← date_today;
          let due := PyDate.add_days day BORROW_DURATION_DAYS in
          let b' := check_out b username due in
          let books := before ++ b' :: after in
          saved ← save_data BOOKS_FILE (JBooks books);
          (if (saved : bool) then emit (CheckedOut (title b') (due_date b'))
           else emit ErrSaveCheckout);;
          ret (true, books)
        else
          emit (Unavailable (title b) (due_date b));;
          ret (true, before ++ b :: after)
      else checkout_loop username book_id (before ++ [b]) after
  end.

(** [checkout_book(username)].  In the [try] block (lines 219-248) only
    [int] raises [ValueError]; the handler of lines 250-251 is the [None]
    case of [py_int]. *)
Definition checkout_book (username : string) : M unit :=
  print_header "Checkout Book";;
  books ← as_books <$> load_data BOOKS_FILE;
  view_all_books;;
  book_id_str ← py_strip <$> input PCheckoutId;
  if negb (py_isdigit book_id_str) then emit ErrIdFormat
  else
    match py_int book_id_str with
    | None => emit ErrInvalidInput
    | Some book_id =>
        r ← checkout_loop username book_id [] books;
        if (r.1 : bool) then ret tt else emit (ErrNoBookWithId book_id)
    end.

(** Whether the caller may see and return a checked-out book (lines 266 and
    292): [role == 'librarian' or book.get("borrower") == username]. *)
Definition may_return (username role : string) (b : book) : bool :=
  String.eqb role "librarian" || borrowed_by b username.

(** The first loop of [return_book] (lines 263-269): displays each
    checked-out book the caller may return and collects them; the result is
    [(borrowed_books, found_borrowed)], starting from the values given. *)
Fixpoint borrowed_loop (username role : string) (books : list book)
    (borrowed_books : list book) (found_borrowed : bool)
  : M (list book * bool) :=
  match books with
  | [] => ret (borrowed_books, found_borrowed)
  | b :: rest =>
      if String.eqb (status b) "Checked Out" && may_return username role b then
        display_book b false;;
        borrowed_loop username role rest (borrowed_books ++ [b]) true
      else borrowed_loop username role rest borrowed_books found_borrowed
  end.

(** The second loop of [return_book] (lines 287-307), in the style of
    [checkout_loop]. *)
Fixpoint return_loop (username role : string) (book_id : Z)
    (before rest : list book) : M (bool * list book) :=
  match rest with
  | [] => ret (false, before)
  | b :: after =>
      if id b =? book_id then
        if String.eqb (status b) "Checked Out" then
          if may_return username role b then
            let original_borrower := borrower b in
            let b' := give_back b in
            let books := before ++ b' :: after in
            saved ← save_data BOOKS_FILE (JBooks books);
            (if (saved : bool) then emit (Returned (title b') original_borrower)
             else emit ErrSaveReturn);;
            ret (true, books)
          else
            emit (ErrBorrowedBy (borrower b));;
            ret (true, before ++ b :: after)
        else
          emit (AlreadyAvailable (title b));;
          ret (true, before ++ b :: after)
      else return_loop username role book_id (before ++ [b]) after
  end.

(** [return_book(username, role)].  As in [checkout_book], the handler of
    lines 312-313 is the [None] case of [py_int]. *)
Definition return_book (username role : string) : M unit :=
  print_header "Return Book";;
  books ← as_books <$> load_data BOOKS_FILE;
  emit BorrowedHeading;;
  shown ← borrowed_loop username role books [] false;
  if negb shown.2 then
    if String.eqb role "librarian" then emit NothingCheckedOut
    else emit (NothingCheckedOutBy username)
  else
    book_id_str ← py_strip <$> input PReturnId;
    if negb (py_isdigit book_id_str) then emit ErrIdFormat
    else
      match py_int book_id_str with
      | None => emit ErrInvalidInput
      | Some book_id =>
          r ← return_loop username role book_id [] books;
          if (r.1 : bool) then ret tt
          else emit (ErrNoBorrowedBookWithId book_id
                       (negb (String.eqb role "librarian")))
      end.

(** ** Librarian functions *)

(** [max(xs)] for a non-empty sequence given as head and tail. *)
Definition py_max (x : Z) (xs : list Z) : Z := fold_left Z.max xs x.

(** [max(book["id"] for book in books) + 1 if books else 1] *)
Definition next_id (books : list book) : Z :=
  match books with
  | [] => 1
  | b :: rest => py_max (id b) (map id rest) + 1
  end.

(** The test of the duplicate check (line 337). *)
Definition same_title_author (book_title book_author : string) (b : book) : bool :=
  String.eqb (py_lower (title b)) (py_lower book_title)
  && String.eqb (py_lower (author b)) (py_lower book_author).

(** The duplicate-check loop (lines 336-339): the first existing book with
    the same title and author, if any. *)
Fixpoint duplicate_of (book_title book_author : string) (books : list book)
  : option book :=
  match books with
  | [] => None
  | b :: rest =>
      if same_title_author book_title book_author b then Some b
      else duplicate_of book_title book_author rest
  end.

(** [add_book()].  The body of its [try] calls nothing that raises on the
    stores of the data model, so the generic [except Exception] handler has
    no case here. *)
Definition add_book : M unit :=
  print_header "Add New Book";;
  books ← as_books <$> load_data BOOKS_FILE;
  let new_id := next_id books in
  book_title ← py_strip <$> input PTitle;
  book_author ← py_strip <$> input PAuthor;
  book_summary ← py_strip <$> input PSummary;
  if PyStr.is_empty book_title || PyStr.is_empty book_author
  then emit ErrEmptyTitleOrAuthor
  else
    match duplicate_of book_title book_author books with
    | Some b => emit (ErrDuplicate (id b))
    | None =>
        let new_book :=
          mkBook new_id book_title book_author "Available" None None
                 (Some book_summary) in
        let books := books ++ [new_book] in
        saved ← save_data BOOKS_FILE (JBooks books);
        if (saved : bool) then emit (Added book_title book_author new_id)
        else emit ErrSaveAdd
    end.

(** ** Vocabulary of the statements *)

(** The world after the events [es] have been printed. *)
Definition say (es : list event) (w : world) : world :=
  mkWorld (disk w) (disk_writable w) (keyboard w) (typed w)
          (screen w ++ es) (today w).

(** The world after [n] more lines have been read from the keyboard. *)
Definition read_lines (n : nat) (w : world) : world :=
  mkWorld (disk w) (disk_writable w) (keyboard w) (n + typed w)
          (screen w) (today w).

(** The world after [filename] has been written with [data]. *)
Definition stored (filename : string) (data : json_data) (w : world) : world :=
  mkWorld (<[filename := Json data]> (disk w)) (disk_writable w)
          (keyboard w) (typed w) (screen w) (today w).

(** The books a load of the books store yields in [w]. *)
Definition stored_books (w : world) : list book :=
  match disk w !! BOOKS_FILE with
  | Some (Json d) => as_books d
  | _ => []
  end.

(** The warning a load of [filename] prints in [w], if any. *)
Definition load_warning (filename : string) (w : world) : list event :=
  match disk w !! filename with
  | Some Corrupt => [ErrCorruptFile filename]
  | _ => []
  end.

(** The [k]-th line still to be typed in [w], counting from zero. *)
Definition next_line (w : world) (k : nat) : string := keyboard w (k + typed w).

(** The consistency of one book record: being available, having no
    borrower and having no due date go together. *)
Definition consistent (b : book) : Prop :=
  (status b = "Available" ↔ borrower b = None)
  ∧ (borrower b = None ↔ due_date b = None).

(** Every book the books store holds is consistent. *)
Definition store_consistent (w : world) : Prop :=
  ∀ books, disk w !! BOOKS_FILE = Some (Json (JBooks books)) →
           Forall consistent books.

(** [q] occurs in [s]: some prefix and suffix surround it. *)
Definition occurs_in (q s : string) : Prop :=
  ∃ pre post, s = pre +:+ q +:+ post.

(** The first book of [books] whose id is [book_id] is [b], found after
    [pre] and before [post]. *)
Definition first_with_id (book_id : Z) (books pre : list book) (b : book)
    (post : list book) : Prop :=
  books = pre ++ b :: post ∧ id b = book_id ∧ Forall (fun x => id x ≠ book_id) pre.

(** A stored account [username] has the plaintext password [pass] and the
    role [r]. *)
Definition account (users : gmap string user) (username pass r : string) : Prop :=
  ∃ u, users !! username = Some u ∧ password u = pass ∧ role u = r.

(** The credentials of the [i]-th login attempt in [w]: the two lines typed,
    each stripped as [login] strips them. *)
Definition attempt_name (w : world) (i : nat) : string :=
  py_strip (next_line w (2 * i)).
Definition attempt_pass (w : world) (i : nat) : string :=
  py_strip (next_line w (2 * i + 1)).

(** The [i]-th attempt names a stored account and gives its password. *)
Definition attempt_ok (users : gmap string user) (w : world) (i : nat) : Prop :=
  ∃ r, account users (attempt_name w i) (attempt_pass w i) r.

(** ** Example worlds *)

(** A keyboard on which the given lines are typed, then empty lines. *)
Definition lines (typed_lines : list string) : nat → string :=
  fun n => nth n typed_lines "".

(** A world on 2026-11-03 with the given files, a writable disk, and the
    given lines about to be typed. *)
Definition example_world (files : gmap string file) (typed_lines : list string)
  : world :=
  mkWorld files true (lines typed_lines) 0 [] 739923.

(** A number of 4301 digits: one more than [int] converts by default. *)
Definition long_number : string := string_of_list_ascii (repeat "1"%char 4301).

(** The disk right after the first run of [initialize_data] on that day. *)
Definition seeded_disk : gmap string file :=
  <[BOOKS_FILE := Json (JBooks (default_books 739923))]>
  (<[USERS_FILE := Json (JUsers default_users)]> ∅).

(** A disk whose books store cannot be parsed. *)
Definition corrupt_disk : gmap string file :=
  <[BOOKS_FILE := Corrupt]> ∅.

(** The match of the search, for a query already lowercased: it occurs in
    the lowercased title, author or summary, the summary being empty when
    absent. *)
Definition hit (query : string) (b : book) : Prop :=
  occurs_in query (py_lower (title b))
  ∨ occurs_in query (py_lower (author b))
  ∨ occurs_in query (py_lower (default "" (summary b))).

(** What search prints for its results. *)
Definition search_report (query : string) (results : list book) : list event :=
  match results with
  | [] => [NoneMatching query]
  | _ => FoundMatching (length results) :: map (fun b => ShowBook b true) results
  end.


(** What [view_all_books] prints after its header for the books loaded. *)
Definition catalog_listing (books : list book) : list event :=
  match books with
  | [] => [NoBooks]
  | _ => map (fun b => ShowBook b false) books ++ [TotalBooks (length books)]
  end.

(** What [checkout_book] prints up to and including its prompt, on a
    store that holds [books]. *)
Definition checkout_preamble (books : list book) : list event :=
  [Header "Checkout Book"; Header "Library Catalog"]
  ++ catalog_listing books ++ [Ask PCheckoutId].


(** The checked-out books a caller of [return_book] is shown: all of them
    for a librarian, the caller's own for anyone else. *)
Definition visible_to (username role : string) (books : list book) : list book :=
  if decide (role = "librarian")
  then filter (fun b => status b = "Checked Out") books
  else filter (fun b => status b = "Checked Out" ∧ borrower b = Some username) books.

(** What [return_book] prints up to and including its prompt, on a
    readable store of which it shows [shown]. *)
Definition return_preamble (shown : list book) : list event :=
  [Header "Return Book"; BorrowedHeading]
  ++ map (fun b => ShowBook b false) shown ++ [Ask PReturnId].

(** The nothing-to-return message for [role]. *)
Definition nothing_to_return (username role : string) : event :=
  if decide (role = "librarian") then NothingCheckedOut
  else NothingCheckedOutBy username.


(** The seed catalog after "mridul" has also borrowed book 4. *)
Definition lent_books : list book :=
  take 3 (default_books 739923)
  ++ [mkBook 4 "Dune" "Frank Herbert" "Checked Out" (Some "mridul")
        (Some "2026-11-17")
        (Some "Epic science fiction novel set on the desert planet Arrakis.")].

Definition lent_disk : gmap string file :=
  <[BOOKS_FILE := Json (JBooks lent_books)]> seeded_disk.

(** The third seed book, on loan to "student1". *)
Definition sapiens : book :=
  mkBook 3 "Sapiens: A Brief History of Humankind" "Yuval Noah Harari"
    "Checked Out" (Some "student1") (Some "2026-10-29")
    (Some "An exploration of human history from the Stone Age to the present.").


(** [b] has the given title and author, compared case-insensitively. *)
Definition same_ci (book_title book_author : string) (b : book) : Prop :=
  py_lower (title b) = py_lower book_title
  ∧ py_lower (author b) = py_lower book_author.


(** What [add_book] prints up to and including its three prompts. *)
Definition add_preamble (w : world) : list event :=
  [Header "Add New Book"] ++ load_warning BOOKS_FILE w
  ++ [Ask PTitle; Ask PAuthor; Ask PSummary].

(** A catalog with one book, and a disk holding it. *)
Definition dune : book :=
  mkBook 7 "Dune" "Frank Herbert" "Available" None None None.

Definition dune_disk : gmap string file :=
  <[BOOKS_FILE := Json (JBooks [dune])]> ∅.



(** From [w] to [w'] the disk is untouched, or the books store has been
    rewritten with a collection that is consistent if the one [w] holds is. *)
Definition keeps_or_saves (w w' : world) : Prop :=
  disk w' = disk w
  ∨ ∃ books', disk w' = <[BOOKS_FILE := Json (JBooks books')]> (disk w)
              ∧ (Forall consistent (stored_books w) → Forall consistent books').


(** A catalog with a single available book with id 1, and its disk. *)
Definition one_book : book :=
  mkBook 1 "Emma" "Jane Austen" "Available" None None None.

Definition one_book_disk : gmap string file :=
  <[BOOKS_FILE := Json (JBooks [one_book])]> ∅.


(** ** Further vocabulary *)

(** What [checkout_book] prints up to and including its prompt, on any
    disk: the load warning appears once for its own load and once for the
    load of [view_all_books]. *)
Definition checkout_heading (w : world) : list event :=
  [Header "Checkout Book"] ++ load_warning BOOKS_FILE w
  ++ [Header "Library Catalog"] ++ load_warning BOOKS_FILE w
  ++ catalog_listing (stored_books w) ++ [Ask PCheckoutId].

(** What [return_book] prints up to and including its prompt, on any disk. *)
Definition return_heading (username role : string) (w : world) : list event :=
  [Header "Return Book"] ++ load_warning BOOKS_FILE w ++ [BorrowedHeading]
  ++ map (fun b => ShowBook b false) (visible_to username role (stored_books w))
  ++ [Ask PReturnId].

(** The fields of a record that identify the book: checkout and return
    write none of them. *)
Definition description (b : book) : Z * string * string * option string :=
  (id b, title b, author b, summary b).

(** The loop of [find_book_by_id] (lines 208-211): the first book whose id
    is [book_id]. *)
Fixpoint find_loop (book_id : Z) (books : list book) : option book :=
  match books with
  | [] => None
  | b :: rest => if id b =? book_id then Some b else find_loop book_id rest
  end.

(** [find_book_by_id(book_id)] *)
Definition find_book_by_id (book_id : Z) : M (option book) :=
  books ← as_books <$> load_data BOOKS_FILE;
  ret (find_loop book_id books).


(** The accounts a load of the users store yields in [w]. *)
Definition stored_users (w : world) : gmap string user :=
  match disk w !! USERS_FILE with
  | Some (Json d) => as_users d
  | _ => ∅
  end.


(** ** The menu session

    [view_users], [main_menu] and the program's entry point print messages
    of their own around the operations above.  A [session] pairs the world
    with the transcript of the terminal, in which the lines of the
    operations ([Printed]) and those of the menu ([Shown]) are in the order
    they appear. *)

(** What the menu and [view_users] write to the terminal. *)
Inductive menu_event :=
| MenuShown (username role : string)   (* lines 382-394; options 5 and 6 are
                                          listed when role is "librarian" *)
| AskChoice                            (* line 396 *)
| AskContinue                          (* pause_and_continue, line 30 *)
| Goodbye (username : string)          (* line 417 *)
| AccessDenied                         (* line 424 *)
| InvalidChoice                        (* line 426 *)
| NoUsersFound                         (* line 366 *)
| UsersTable (users : gmap string user). (* lines 369-373: one row per user,
                                            name and role; the order of the
                                            rows is not represented *)

Inductive line :=
| Printed (e : event)
| Shown (m : menu_event).

Record session := mkSession {
  inner : world;
  transcript : list line
}.

Definition Menu (A : Type) : Type := session → outcome A * session.

#[global] Instance Menu_ret : MRet Menu := fun A a s => (Ret a, s).
#[global] Instance Menu_bind : MBind Menu := fun A B k m s =>
  match m s with
  | (Ret a, s') => k a s'
  | (Exited, s') => (Exited, s')
  end.
#[global] Instance Menu_fmap : FMap Menu := fun A B f m s =>
  match m s with
  | (Ret a, s') => (Ret (f a), s')
  | (Exited, s') => (Exited, s')
  end.

(** An operation run from the menu: the events it adds to the screen are
    added to the transcript. *)
Definition lift {A} (m : M A) : Menu A :=
  fun s =>
    let r := m (inner s) in
    (r.1, mkSession r.2
            (transcript s
             ++ map Printed (drop (length (screen (inner s))) (screen r.2)))).

(** A [print] of the menu. *)
Definition show (m : menu_event) : Menu unit :=
  fun s => (Ret tt, mkSession (inner s) (transcript s ++ [Shown m])).

(** An [input] of the menu: shows its prompt and reads the next line. *)
Definition ask (m : menu_event) : Menu string :=
  fun s => (Ret (next_line (inner s) 0),
            mkSession (read_lines 1 (inner s)) (transcript s ++ [Shown m])).

(** [pause_and_continue()] *)
Definition pause_and_continue : Menu unit :=
  _ ← ask AskContinue; mret tt.

(** [view_users()] *)
Definition view_users : Menu unit :=
  lift (print_header "Manage Users - View All");;
  users ← lift (as_users <$> load_data USERS_FILE);
  if (size users =? 0)%nat then show NoUsersFound
  else show (UsersTable users).

(** [main_menu(username, role)], run for at most [fuel] rounds of its
    [while True] loop.  The result is [Some tt] when the loop was left by
    [break], [None] when the rounds ran out with the loop still going. *)
Fixpoint main_menu (fuel : nat) (username role : string) : Menu (option unit) :=
  match fuel with
  | O => mret None
  | S fuel' =>
      show (MenuShown username role);;
      choice ← py_strip <$> ask AskChoice;
      if String.eqb choice "1" then
        lift search_books;; pause_and_continue;; main_menu fuel' username role
      else if String.eqb choice "2" then
        lift view_all_books;; pause_and_continue;; main_menu fuel' username role
      else if String.eqb choice "3" then
        lift (checkout_book username);; pause_and_continue;;
        main_menu fuel' username role
      else if String.eqb choice "4" then
        lift (return_book username role);; pause_and_continue;;
        main_menu fuel' username role
      else if String.eqb choice "5" && String.eqb role "librarian" then
        lift add_book;; pause_and_continue;; main_menu fuel' username role
      else if String.eqb choice "6" && String.eqb role "librarian" then
        view_users;; pause_and_continue;; main_menu fuel' username role
      else if String.eqb choice "0" then
        show (Goodbye username);; mret (Some tt)
      else
        (if negb (String.eqb role "librarian")
            && (String.eqb choice "5" || String.eqb choice "6")
         then show AccessDenied else show InvalidChoice);;
        main_menu fuel' username role
  end.

(** The program ([if __name__ == "__main__"]): seed, log in, and run the
    menu when login returned a non-empty name and role. *)
Definition main (fuel : nat) : Menu (option unit) :=
  lift initialize_data;;
  r ← lift login;
  match r with
  | Some (active_user, user_role) =>
      if negb (PyStr.is_empty active_user) && negb (PyStr.is_empty user_role)
      then main_menu fuel active_user user_role
      else mret (Some tt)
  | None => mret (Some tt)
  end.

(** A choice that starts no operation and does not end the session for a
    caller with [role]: none of 0 to 4, and for a librarian not 5 or 6
    either. *)
Definition skipped (role choice : string) : Prop :=
  (choice ∉ ["0"; "1"; "2"; "3"; "4"])
  ∧ (role = "librarian" → (choice ∉ ["5"; "6"])).


(** The books store is sound: every record is consistent and no two
    records share an id. *)
Definition sound_store (w : world) : Prop :=
  store_consistent w ∧ NoDup (map id (stored_books w)).

(** A session that starts in world [w] with nothing on its transcript. *)
Definition fresh_session (w : world) : session := mkSession w [].


(** ** Basic facts about the monad and the primitive operations *)

Ltac unfold_monad :=
  unfold mbind, M_bind, fmap, M_fmap, mret, M_ret, bind, ret.

Lemma run_bind {A B} (m : M A) (k : A → M B) w a w' :
  m w = (Ret a, w') → (m ≫= k) w = k a w'.
Proof. intros H. unfold_monad. by rewrite H. Qed.

Lemma run_fmap {A B} (f : A → B) (m : M A) w a w' :
  m w = (Ret a, w') → (f <$> m) w = (Ret (f a), w').
Proof. intros H. unfold_monad. by rewrite H. Qed.

Lemma say_say es1 es2 w : say es2 (say es1 w) = say (es1 ++ es2) w.
Proof. unfold say; simpl. by rewrite <- app_assoc. Qed.

Lemma read_lines_say n es w : read_lines n (say es w) = say es (read_lines n w).
Proof. reflexivity. Qed.

Lemma stored_books_say es w : stored_books (say es w) = stored_books w.
Proof. reflexivity. Qed.

Lemma load_warning_say filename es w :
  load_warning filename (say es w) = load_warning filename w.
Proof. reflexivity. Qed.

Lemma say_nil w : say [] w = w.
Proof. destruct w; unfold say; simpl. by rewrite app_nil_r. Qed.

Lemma emit_say e w : emit e w = (Ret tt, say [e] w).
Proof. reflexivity. Qed.

Lemma input_read p w :
  input p w = (Ret (next_line w 0), say [Ask p] (read_lines 1 w)).
Proof. reflexivity. Qed.

Lemma display_each_say books detailed w :
  display_each books detailed w
  = (Ret tt, say (map (fun b => ShowBook b detailed) books) w).
Proof.
  revert w. induction books as [|b books IH]; intros w; simpl.
  - by rewrite say_nil.
  - unfold_monad. unfold display_book. rewrite emit_say, IH, say_say.
    reflexivity.
Qed.

(** A load never fails: it returns the stored collection or the empty
    default, after the warning for a corrupt file. *)
Lemma load_data_total filename w :
  load_data filename w
  = (Ret (match disk w !! filename with
          | Some (Json d) => d
          | _ => empty_default filename
          end), say (load_warning filename w) w).
Proof.
  unfold load_data, load_warning.
  destruct (disk w !! filename) as [[|d]|]; unfold_monad; simpl;
    rewrite ?say_nil; reflexivity.
Qed.

Lemma load_books w :
  (as_books <$> load_data BOOKS_FILE) w
  = (Ret (stored_books w), say (load_warning BOOKS_FILE w) w).
Proof.
  unfold_monad. rewrite load_data_total. unfold stored_books.
  destruct (disk w !! BOOKS_FILE) as [[|d]|]; reflexivity.
Qed.

(** ** Persistence layer *)

(** On a file of the disk, [load_data] ends as its handlers make it end
    on what the body of the [try] yields there: it always returns. *)
Lemma load_data_handled filename w f :
  disk w !! filename = Some f →
  ∃ printed d,
    load_data_handlers filename (read_file f) = Returns printed d
    ∧ load_data filename w = (Ret d, say printed w).
Proof.
  intros Hf. unfold load_data. rewrite Hf. destruct f as [|d]; simpl.
  - eexists _, _. split; reflexivity.
  - eexists _, _. split; [reflexivity |]. unfold_monad. by rewrite say_nil.
Qed.

(** C9: a load does not always return the empty default instead of
    raising.  Of the failures of reading an existing store, the handlers of
    [load_data] turn two into the default: text that is not JSON
    ([JSONDecodeError], with the warning) and a file gone since the test
    ([FileNotFoundError]).  Contents that are not text at all
    ([UnicodeDecodeError]) and a store that cannot be opened
    ([PermissionError]) match neither handler: the exception leaves
    [load_data], for the users store and the books store alike, where the
    claim has the default returned. *)
Theorem load_data_lets_errors_through (filename : string) :
  load_data_handlers filename (Raised UnicodeDecodeError)
  = Propagates UnicodeDecodeError
  ∧ load_data_handlers filename (Raised PermissionError)
    = Propagates PermissionError
  ∧ load_data_handlers filename (Raised JSONDecodeError)
    = Returns [ErrCorruptFile filename] (empty_default filename)
  ∧ load_data_handlers filename (Raised FileNotFoundError)
    = Returns [] (empty_default filename)
  ∧ (∀ printed d,
       load_data_handlers BOOKS_FILE (Raised UnicodeDecodeError)
       ≠ Returns printed d)
  ∧ (∀ printed d,
       load_data_handlers USERS_FILE (Raised UnicodeDecodeError)
       ≠ Returns printed d).
Proof.
  split; [reflexivity |]. split; [reflexivity |]. split; [reflexivity |].
  split; [reflexivity |]. split; intros printed d; discriminate.
Qed.

(** ** Catalog operations: search *)

Lemma startswith_spec p s :
  PyStr.startswith p s = true ↔ ∃ post, s = p +:+ post.
Proof.
  revert s. induction p as [|a p IH]; intros s; simpl.
  - split; [intros _; by exists s | done].
  - destruct s as [|b s].
    + split; [done | intros [post H]; discriminate H].
    + rewrite andb_true_iff, IH. split.
      * intros [Hab [post ->]]. apply Ascii.eqb_eq in Hab as ->. by exists post.
      * intros [post H]. injection H as -> ->. split; [apply Ascii.eqb_refl | by exists post].
Qed.

(** [q in s] holds exactly when [q] occurs in [s]. *)
Lemma contains_spec q s : PyStr.contains q s = true ↔ occurs_in q s.
Proof.
  unfold occurs_in. induction s as [|c s IH]; simpl.
  - rewrite orb_false_r, startswith_spec. split.
    + intros [post H]. by exists "", post.
    + intros [pre [post H]]. destruct pre; [by exists post | discriminate H].
  - rewrite orb_true_iff, startswith_spec, IH. split.
    + intros [[post H] | [pre [post H]]].
      * by exists "", post.
      * exists (String c pre), post. simpl. by rewrite H.
    + intros [pre [post H]]. destruct pre as [|c' pre]; simpl in H.
      * left. by exists post.
      * right. injection H as -> ->. by exists pre, post.
Qed.

Lemma search_loop_filter query books :
  search_loop query books = List.filter (matches_query query) books.
Proof.
  induction books as [|b books IH]; simpl; [done |].
  destruct (matches_query query b); by rewrite IH.
Qed.

Lemma is_empty_spec s : PyStr.is_empty s = true ↔ s = "".
Proof. destruct s; simpl; split; congruence. Qed.

(** C10: on an empty catalog, search prints that there are no books to
    search and returns before it prompts: no line is read from the
    keyboard, no query prompt and no empty-query error is printed. *)
Theorem search_books_empty_catalog (w : world) :
  stored_books w = [] →
  search_books w
  = (Ret tt, say ([Header "Search Books"] ++ load_warning BOOKS_FILE w
                  ++ [NoBooksToSearch]) w)
  ∧ typed (search_books w).2 = typed w
  ∧ disk (search_books w).2 = disk w
  ∧ (Ask PSearchTerm ∉ load_warning BOOKS_FILE w ++ [NoBooksToSearch])
  ∧ (ErrEmptySearchTerm ∉ load_warning BOOKS_FILE w ++ [NoBooksToSearch]).
Proof.
  intros Hempty.
  assert (Hrun : search_books w
    = (Ret tt, say ([Header "Search Books"] ++ load_warning BOOKS_FILE w
                    ++ [NoBooksToSearch]) w)).
  { unfold search_books, print_header.
    rewrite (run_bind _ _ _ _ _ (emit_say _ _)).
    rewrite (run_bind _ _ _ _ _ (load_books _)).
    replace (stored_books (say [Header "Search Books"] w)) with (stored_books w)
      by reflexivity.
    rewrite Hempty, emit_say, !say_say. reflexivity. }
  rewrite Hrun. repeat split.
  - unfold load_warning. intros H.
    destruct (disk w !! BOOKS_FILE) as [[|d]|]; simpl in H;
      repeat (apply elem_of_cons in H as [H|H]; [discriminate H |]);
      by apply elem_of_nil in H.
  - unfold load_warning. intros H.
    destruct (disk w !! BOOKS_FILE) as [[|d]|]; simpl in H;
      repeat (apply elem_of_cons in H as [H|H]; [discriminate H |]);
      by apply elem_of_nil in H.
Qed.

#[global] Instance occurs_in_dec q s : Decision (occurs_in q s).
Proof.
  destruct (PyStr.contains q s) eqn:E.
  - left. by apply contains_spec.
  - right. intros H. apply contains_spec in H. congruence.
Defined.

#[global] Instance hit_dec query b : Decision (hit query b).
Proof. unfold hit. apply _. Defined.

Lemma matches_query_hit query b :
  matches_query query b = true ↔ hit query b.
Proof.
  unfold matches_query, hit. rewrite !orb_true_iff, !contains_spec. tauto.
Qed.

Lemma filter_hit query books :
  List.filter (matches_query query) books = filter (hit query) books.
Proof.
  induction books as [|b books IH]; [done |].
  simpl. rewrite filter_cons, IH.
  destruct (matches_query query b) eqn:E.
  - apply matches_query_hit in E. by rewrite decide_True.
  - rewrite decide_False; [done |]. intros H. apply matches_query_hit in H. congruence.
Qed.

Lemma load_warning_nonempty w : stored_books w ≠ [] → load_warning BOOKS_FILE w = [].
Proof.
  unfold stored_books, load_warning.
  destruct (disk w !! BOOKS_FILE) as [[|d]|]; done.
Qed.

(** C7: with [query] the line typed at the prompt, lowercased (and
    stripped, as line 186 has it), search shows exactly the books, in
    storage order, for which that lowercased query occurs in the lowercased
    title, author or summary (empty when absent); an empty query gets the
    empty-search-term error, not an empty result.  This holds for every
    line typed and every stored text, whatever their script. *)
Theorem search_books_results (w : world) :
  stored_books w ≠ [] →
  let query := py_strip (py_lower (next_line w 0)) in
  let results := filter (hit query) (stored_books w) in
  search_books w
  = (Ret tt,
     say ([Header "Search Books"; Ask PSearchTerm]
          ++ (if decide (query = "") then [ErrEmptySearchTerm]
              else search_report query results))
         (read_lines 1 w)).
Proof.
  intros Hne query results.
  unfold search_books, print_header.
  rewrite (run_bind _ _ _ _ _ (emit_say _ _)).
  rewrite (run_bind _ _ _ _ _ (load_books _)).
  replace (stored_books (say [Header "Search Books"] w)) with (stored_books w)
    by reflexivity.
  replace (load_warning BOOKS_FILE (say [Header "Search Books"] w))
    with (load_warning BOOKS_FILE w) by reflexivity.
  rewrite (load_warning_nonempty w Hne), say_nil.
  destruct (stored_books w) as [|b0 books] eqn:Hbooks; [done |].
  rewrite (run_bind _ _ _ _ _ (run_fmap _ _ _ _ _ (input_read _ _))).
  change (next_line (say [Header "Search Books"] w) 0) with (next_line w 0).
  fold query.
  destruct (decide (query = "")) as [Hq | Hq].
  - rewrite (proj2 (is_empty_spec query) Hq), emit_say, read_lines_say, !say_say.
    reflexivity.
  - destruct (PyStr.is_empty query) eqn:E; [by apply is_empty_spec in E |].
    rewrite search_loop_filter, filter_hit. fold results.
    unfold search_report. destruct results as [|r rs] eqn:Hres.
    + rewrite emit_say, read_lines_say, !say_say. reflexivity.
    + rewrite (run_bind _ _ _ _ _ (emit_say _ _)), display_each_say,
        read_lines_say, !say_say.
      reflexivity.
Qed.

(** ** Circulation: checkout *)

Ltac world_eq :=
  unfold say, read_lines, stored, checkout_preamble, return_preamble,
    add_preamble, check_out, give_back, BORROW_DURATION_DAYS;
  simpl; repeat (rewrite <- app_assoc; simpl); reflexivity.

Lemma save_data_run filename data w :
  save_data filename data w
  = if disk_writable w then (Ret true, stored filename data w)
    else (Ret false, say [ErrSaving filename] w).
Proof.
  unfold save_data, write_json. unfold_monad.
  destruct w as [files writable kb n scr day]; simpl.
  destruct writable; reflexivity.
Qed.

Lemma stored_books_json w books :
  disk w !! BOOKS_FILE = Some (Json (JBooks books)) → stored_books w = books.
Proof. intros H. unfold stored_books. by rewrite H. Qed.

Lemma load_warning_json w filename d :
  disk w !! filename = Some (Json d) → load_warning filename w = [].
Proof. intros H. unfold load_warning. by rewrite H. Qed.

Lemma view_all_books_run w :
  view_all_books w
  = (Ret tt, say ([Header "Library Catalog"] ++ load_warning BOOKS_FILE w
                  ++ catalog_listing (stored_books w)) w).
Proof.
  unfold view_all_books, print_header.
  rewrite (run_bind _ _ _ _ _ (emit_say _ _)).
  rewrite (run_bind _ _ _ _ _ (load_books _)).
  replace (stored_books (say [Header "Library Catalog"] w)) with (stored_books w)
    by reflexivity.
  replace (load_warning BOOKS_FILE (say [Header "Library Catalog"] w))
    with (load_warning BOOKS_FILE w) by reflexivity.
  destruct (stored_books w) as [|b books].
  - rewrite emit_say, !say_say. reflexivity.
  - rewrite (run_bind _ _ _ _ _ (display_each_say _ _ _)), emit_say, !say_say.
    simpl. rewrite <- ?app_assoc. reflexivity.
Qed.

(** The loop passes over books with another id. *)
Lemma checkout_loop_skip username book_id pre before rest w :
  Forall (fun x => id x ≠ book_id) pre →
  checkout_loop username book_id before (pre ++ rest) w
  = checkout_loop username book_id (before ++ pre) rest w.
Proof.
  intros H. revert before. induction H as [|x pre Hx _ IH]; intros before; simpl.
  - by rewrite app_nil_r.
  - destruct (Z.eqb_spec (id x) book_id); [contradiction |].
    rewrite IH, <- app_assoc. reflexivity.
Qed.

Lemma checkout_loop_not_found username book_id before rest w :
  Forall (fun x => id x ≠ book_id) rest →
  checkout_loop username book_id before rest w = (Ret (false, before ++ rest), w).
Proof.
  intros H. rewrite <- (app_nil_r rest) at 1.
  rewrite checkout_loop_skip by done. reflexivity.
Qed.

(** Either no book has the id, or there is a first one. *)
Lemma first_with_id_cases book_id books :
  Forall (fun x => id x ≠ book_id) books
  ∨ ∃ pre b post, first_with_id book_id books pre b post.
Proof.
  induction books as [|x books IH].
  - by left.
  - destruct (Z.eq_dec (id x) book_id) as [Heq | Hne].
    + right. exists [], x, books. by repeat split.
    + destruct IH as [IH | (pre & b & post & -> & Hb & Hpre)].
      * left. by constructor.
      * right. exists (x :: pre), b, post. repeat split; [done | by constructor].
Qed.

Lemma checkout_loop_available username book_id pre b post w :
  id b = book_id → Forall (fun x => id x ≠ book_id) pre →
  status b = "Available" →
  let b' := check_out b username (today w + BORROW_DURATION_DAYS) in
  checkout_loop username book_id [] (pre ++ b :: post) w
  = if disk_writable w
    then (Ret (true, pre ++ b' :: post),
          say [CheckedOut (title b) (due_date b')]
              (stored BOOKS_FILE (JBooks (pre ++ b' :: post)) w))
    else (Ret (true, pre ++ b' :: post),
          say [ErrSaving BOOKS_FILE; ErrSaveCheckout] w).
Proof.
  intros Hid Hpre Hst b'. rewrite checkout_loop_skip by done. simpl.
  rewrite (proj2 (Z.eqb_eq _ _) Hid), Hst. simpl.
  unfold_monad. unfold date_today, PyDate.add_days. rewrite save_data_run.
  destruct (disk_writable w); simpl; first [reflexivity | f_equal; world_eq].
Qed.

Lemma checkout_loop_unavailable username book_id pre b post w :
  id b = book_id → Forall (fun x => id x ≠ book_id) pre →
  status b ≠ "Available" →
  checkout_loop username book_id [] (pre ++ b :: post) w
  = (Ret (true, pre ++ b :: post), say [Unavailable (title b) (due_date b)] w).
Proof.
  intros Hid Hpre Hst. rewrite checkout_loop_skip by done. simpl.
  rewrite (proj2 (Z.eqb_eq _ _) Hid).
  destruct (String.eqb_spec (status b) "Available"); [contradiction |].
  reflexivity.
Qed.

(** [checkout_book] up to its loop, on a store holding [books], when the
    line typed is converted to [book_id]. *)
Lemma checkout_book_run username w books book_id :
  disk w !! BOOKS_FILE = Some (Json (JBooks books)) →
  py_isdigit (py_strip (next_line w 0)) = true →
  py_int (py_strip (next_line w 0)) = Some book_id →
  checkout_book username w
  = (r ← checkout_loop username book_id [] books;
     if (r.1 : bool) then ret tt
     else emit (ErrNoBookWithId book_id))
      (say (checkout_preamble books) (read_lines 1 w)).
Proof.
  intros Hdisk Hdigit Hint. unfold checkout_book, print_header.
  rewrite (run_bind _ _ _ _ _ (emit_say _ _)).
  rewrite (run_bind _ _ _ _ _ (load_books _)).
  rewrite (run_bind _ _ _ _ _ (view_all_books_run _)).
  rewrite (run_bind _ _ _ _ _ (run_fmap _ _ _ _ _ (input_read _ _))).
  change (next_line _ 0) with (next_line w 0).
  rewrite Hdigit, Hint. simpl negb. cbv iota.
  rewrite !stored_books_say, !load_warning_say.
  rewrite (stored_books_json _ _ Hdisk), (load_warning_json _ _ _ Hdisk).
  f_equal. unfold checkout_preamble. world_eq.
Qed.

(** C2: when the first book whose id is the number entered (the line
    typed, stripped, being digits that [int] converts to that number) is
    available, checkout by [username] marks it checked out, records [username] as the
    borrower and today plus 14 days, in ISO format, as the due date (every
    other field and every other book as before), and saves the updated
    collection: on a writable disk the books store then holds it and the
    success message shows the due date; when the write fails the store is as
    before and the failure is reported. *)
Theorem checkout_book_available (username : string) (w : world)
    (books pre post : list book) (b : book) (book_id : Z) :
  disk w !! BOOKS_FILE = Some (Json (JBooks books)) →
  py_isdigit (py_strip (next_line w 0)) = true →
  py_int (py_strip (next_line w 0)) = Some book_id →
  first_with_id book_id books pre b post →
  status b = "Available" →
  let due := PyDate.isoformat (today w + 14) in
  let b' := mkBook (id b) (title b) (author b) "Checked Out" (Some username)
                   (Some due) (summary b) in
  let updated := pre ++ b' :: post in
  (∀ w0, today w0 = today w →
         (checkout_loop username (id b) [] books w0).1 = Ret (true, updated))
  ∧ (disk_writable w = true →
       checkout_book username w
       = (Ret tt, say (checkout_preamble books ++ [CheckedOut (title b) (Some due)])
                      (stored BOOKS_FILE (JBooks updated) (read_lines 1 w))))
  ∧ (disk_writable w = false →
       checkout_book username w
       = (Ret tt, say (checkout_preamble books
                       ++ [ErrSaving BOOKS_FILE; ErrSaveCheckout])
                      (read_lines 1 w))).
Proof.
  intros Hdisk Hdigit Hint (-> & Hid & Hpre) Hst due b' updated.
  split; [| split].
  - intros w0 Hday.
    rewrite <- Hid in Hpre.
    rewrite (checkout_loop_available username (id b) pre b post w0 eq_refl Hpre Hst).
    rewrite Hday. by destruct (disk_writable w0).
  - intros Hw. rewrite (checkout_book_run _ _ _ _ Hdisk Hdigit Hint).
    unfold_monad.
    rewrite (checkout_loop_available username _ pre b post _ Hid Hpre Hst).
    simpl disk_writable. rewrite Hw. unfold updated, b', due. f_equal. world_eq.
  - intros Hw. rewrite (checkout_book_run _ _ _ _ Hdisk Hdigit Hint).
    unfold_monad.
    rewrite (checkout_loop_available username _ pre b post _ Hid Hpre Hst).
    simpl disk_writable. rewrite Hw. unfold updated, b', due. f_equal. world_eq.
Qed.

(** C3: when the first book whose id is the number entered (the line
    typed, stripped, being digits that [int] converts to that number) is
    not available (it is checked out), checkout changes no field of any book,
    in memory or on disk, saves nothing, and reports that the book is
    unavailable together with its current due date. *)
Theorem checkout_book_unavailable (username : string) (w : world)
    (books pre post : list book) (b : book) (book_id : Z) :
  disk w !! BOOKS_FILE = Some (Json (JBooks books)) →
  py_isdigit (py_strip (next_line w 0)) = true →
  py_int (py_strip (next_line w 0)) = Some book_id →
  first_with_id book_id books pre b post →
  status b ≠ "Available" →
  (∀ w0, checkout_loop username (id b) [] books w0
         = (Ret (true, books), say [Unavailable (title b) (due_date b)] w0))
  ∧ checkout_book username w
    = (Ret tt, say (checkout_preamble books ++ [Unavailable (title b) (due_date b)])
                   (read_lines 1 w))
  ∧ disk (checkout_book username w).2 = disk w.
Proof.
  intros Hdisk Hdigit Hint (-> & Hid & Hpre) Hst.
  assert (Hrun : checkout_book username w
    = (Ret tt, say (checkout_preamble (pre ++ b :: post)
                    ++ [Unavailable (title b) (due_date b)]) (read_lines 1 w))).
  { rewrite (checkout_book_run _ _ _ _ Hdisk Hdigit Hint). unfold_monad.
    rewrite (checkout_loop_unavailable username _ pre b post _ Hid Hpre Hst).
    simpl. f_equal. world_eq. }
  split; [| split].
  - intros w0. rewrite <- Hid in Hpre. by apply checkout_loop_unavailable.
  - exact Hrun.
  - by rewrite Hrun.
Qed.

(** ** Circulation: return *)

Lemma borrowed_by_spec b username :
  borrowed_by b username = true ↔ borrower b = Some username.
Proof.
  unfold borrowed_by. destruct (borrower b) as [who|]; [| done].
  rewrite String.eqb_eq. split; congruence.
Qed.

Lemma may_return_spec username role b :
  may_return username role b = true
  ↔ role = "librarian" ∨ borrower b = Some username.
Proof.
  unfold may_return. by rewrite orb_true_iff, String.eqb_eq, borrowed_by_spec.
Qed.

Lemma visible_to_cons username role b books :
  visible_to username role (b :: books)
  = if String.eqb (status b) "Checked Out" && may_return username role b
    then b :: visible_to username role books
    else visible_to username role books.
Proof.
  unfold visible_to.
  destruct (String.eqb (status b) "Checked Out" && may_return username role b) eqn:E.
  - apply andb_true_iff in E as [Hst Hmay].
    apply String.eqb_eq in Hst. apply may_return_spec in Hmay.
    destruct (decide (role = "librarian")) as [Hr | Hr];
      rewrite filter_cons, decide_True; [done | done | done | ].
    split; [done |]. by destruct Hmay.
  - apply andb_false_iff in E.
    destruct (decide (role = "librarian")) as [Hr | Hr];
      rewrite filter_cons, decide_False; try done.
    + intros Hst. destruct E as [E | E].
      * apply String.eqb_neq in E. done.
      * assert (may_return username role b = true) by (apply may_return_spec; by left).
        congruence.
    + intros [Hst Hb]. destruct E as [E | E].
      * apply String.eqb_neq in E. done.
      * assert (may_return username role b = true) by (apply may_return_spec; by right).
        congruence.
Qed.

(** The first loop collects and displays exactly the visible books. *)
Lemma borrowed_loop_run username role books acc found w :
  borrowed_loop username role books acc found w
  = (Ret (acc ++ visible_to username role books,
          match visible_to username role books with [] => found | _ => true end),
     say (map (fun b => ShowBook b false) (visible_to username role books)) w).
Proof.
  revert acc found w. induction books as [|b books IH]; intros acc found w.
  - unfold visible_to. destruct (decide (role = "librarian")); simpl;
      by rewrite app_nil_r, say_nil.
  - simpl borrowed_loop. rewrite visible_to_cons.
    destruct (String.eqb (status b) "Checked Out" && may_return username role b).
    + unfold display_book. rewrite (run_bind _ _ _ _ _ (emit_say _ _)), IH.
      rewrite say_say, <- app_assoc. simpl.
      by destruct (visible_to username role books).
    + apply IH.
Qed.

Lemma return_loop_skip username role book_id pre before rest w :
  Forall (fun x => id x ≠ book_id) pre →
  return_loop username role book_id before (pre ++ rest) w
  = return_loop username role book_id (before ++ pre) rest w.
Proof.
  intros H. revert before. induction H as [|x pre Hx _ IH]; intros before; simpl.
  - by rewrite app_nil_r.
  - destruct (Z.eqb_spec (id x) book_id); [contradiction |].
    rewrite IH, <- app_assoc. reflexivity.
Qed.

Lemma return_loop_allowed username role book_id pre b post w :
  id b = book_id → Forall (fun x => id x ≠ book_id) pre →
  status b = "Checked Out" →
  role = "librarian" ∨ borrower b = Some username →
  return_loop username role book_id [] (pre ++ b :: post) w
  = if disk_writable w
    then (Ret (true, pre ++ give_back b :: post),
          say [Returned (title b) (borrower b)]
              (stored BOOKS_FILE (JBooks (pre ++ give_back b :: post)) w))
    else (Ret (true, pre ++ give_back b :: post),
          say [ErrSaving BOOKS_FILE; ErrSaveReturn] w).
Proof.
  intros Hid Hpre Hst Hmay. rewrite return_loop_skip by done. simpl.
  rewrite (proj2 (Z.eqb_eq _ _) Hid), Hst. simpl.
  rewrite (proj2 (may_return_spec _ _ _) Hmay).
  unfold_monad. rewrite save_data_run.
  destruct (disk_writable w); simpl; first [reflexivity | f_equal; world_eq].
Qed.

Lemma return_loop_denied username role book_id pre b post w :
  id b = book_id → Forall (fun x => id x ≠ book_id) pre →
  status b = "Checked Out" →
  role ≠ "librarian" → borrower b ≠ Some username →
  return_loop username role book_id [] (pre ++ b :: post) w
  = (Ret (true, pre ++ b :: post), say [ErrBorrowedBy (borrower b)] w).
Proof.
  intros Hid Hpre Hst Hrole Hb. rewrite return_loop_skip by done. simpl.
  rewrite (proj2 (Z.eqb_eq _ _) Hid), Hst. simpl.
  destruct (may_return username role b) eqn:E; [| reflexivity].
  apply may_return_spec in E as [E | E]; contradiction.
Qed.

(** [return_book] up to the test of [found_borrowed]. *)
Lemma return_book_run username role w :
  return_book username role w
  = (let shown := visible_to username role (stored_books w) in
     match shown with
     | [] => emit (nothing_to_return username role)
     | _ =>
         book_id_str ← py_strip <$> input PReturnId;
         if negb (py_isdigit book_id_str) then emit ErrIdFormat
         else
           match py_int book_id_str with
           | None => emit ErrInvalidInput
           | Some book_id =>
               r ← return_loop username role book_id [] (stored_books w);
               if (r.1 : bool) then ret tt
               else emit (ErrNoBorrowedBookWithId book_id
                            (negb (String.eqb role "librarian")))
           end
     end)
      (say ([Header "Return Book"] ++ load_warning BOOKS_FILE w ++ [BorrowedHeading]
            ++ map (fun b => ShowBook b false)
                   (visible_to username role (stored_books w))) w).
Proof.
  unfold return_book, print_header.
  rewrite (run_bind _ _ _ _ _ (emit_say _ _)).
  rewrite (run_bind _ _ _ _ _ (load_books _)).
  rewrite (run_bind _ _ _ _ _ (emit_say _ _)).
  rewrite (run_bind _ _ _ _ _ (borrowed_loop_run _ _ _ _ _ _)).
  rewrite !stored_books_say, !load_warning_say, !say_say. simpl.
  destruct (visible_to username role (stored_books w)) as [|v vs]; simpl.
  - unfold nothing_to_return.
    destruct (String.eqb_spec role "librarian") as [Hr | Hr].
    + by rewrite decide_True.
    + by rewrite decide_False.
  - reflexivity.
Qed.

(** A checked-out book its caller may return is among the books shown. *)
Lemma visible_to_elem username role books b :
  b ∈ books → status b = "Checked Out" →
  role = "librarian" ∨ borrower b = Some username →
  b ∈ visible_to username role books.
Proof.
  intros Hin Hst Hmay. unfold visible_to.
  destruct (decide (role = "librarian")) as [Hr | Hr];
    apply list_elem_of_filter; [done |].
  split; [| done]. split; [done |]. by destruct Hmay.
Qed.

(** With nothing to show, [return_book] stops after its message. *)
Lemma return_book_nothing username role w :
  visible_to username role (stored_books w) = [] →
  return_book username role w
  = (Ret tt, say ([Header "Return Book"] ++ load_warning BOOKS_FILE w
                  ++ [BorrowedHeading; nothing_to_return username role]) w).
Proof.
  intros Hnone. rewrite return_book_run, Hnone. simpl.
  rewrite emit_say, say_say. f_equal. f_equal. simpl.
  rewrite <- ?app_assoc. reflexivity.
Qed.

(** With something to show and a number typed, [return_book] reaches its
    second loop. *)
Lemma return_book_prompted username role w books book_id :
  disk w !! BOOKS_FILE = Some (Json (JBooks books)) →
  visible_to username role books ≠ [] →
  py_isdigit (py_strip (next_line w 0)) = true →
  py_int (py_strip (next_line w 0)) = Some book_id →
  return_book username role w
  = (r ← return_loop username role book_id [] books;
     if (r.1 : bool) then ret tt
     else emit (ErrNoBorrowedBookWithId book_id
                  (negb (String.eqb role "librarian"))))
      (say (return_preamble (visible_to username role books)) (read_lines 1 w)).
Proof.
  intros Hdisk Hshown Hdigit Hint.
  rewrite return_book_run, (stored_books_json _ _ Hdisk),
    (load_warning_json _ _ _ Hdisk).
  destruct (visible_to username role books) as [|v vs] eqn:Hv; [done |].
  cbv zeta iota.
  rewrite (run_bind _ _ _ _ _ (run_fmap _ _ _ _ _ (input_read _ _))).
  change (next_line _ 0) with (next_line w 0).
  rewrite Hdigit, Hint. simpl negb. cbv iota.
  f_equal. unfold return_preamble. world_eq.
Qed.

(** C5: the books [return_book] collects and displays are exactly the
    checked-out books for a librarian, and exactly the checked-out books
    whose borrower is the caller for anyone else; when there are none, it
    prints the nothing-to-return message of the caller's role and stops:
    no id prompt, no line read, nothing written. *)
Theorem return_book_visible_subset (username role : string) (w : world) :
  let books := stored_books w in
  let shown := visible_to username role books in
  (role = "librarian" → shown = filter (fun b => status b = "Checked Out") books)
  ∧ (role ≠ "librarian" →
       shown = filter (fun b => status b = "Checked Out"
                                ∧ borrower b = Some username) books)
  ∧ (∀ w0, borrowed_loop username role books [] false w0
           = (Ret (shown, match shown with [] => false | _ => true end),
              say (map (fun b => ShowBook b false) shown) w0))
  ∧ (shown = [] →
       return_book username role w
       = (Ret tt, say ([Header "Return Book"] ++ load_warning BOOKS_FILE w
                       ++ [BorrowedHeading; nothing_to_return username role]) w)
       ∧ typed (return_book username role w).2 = typed w
       ∧ disk (return_book username role w).2 = disk w).
Proof.
  intros books shown. split; [| split; [| split]].
  - intros Hr. unfold shown, visible_to. by rewrite decide_True.
  - intros Hr. unfold shown, visible_to. by rewrite decide_False.
  - intros w0. by rewrite borrowed_loop_run.
  - intros Hnone. by rewrite (return_book_nothing _ _ _ Hnone).
Qed.

(** C4: when the first book whose id is the number entered at the prompt
    (the line typed, stripped, being digits that [int] converts to that
    number) is checked out, a librarian or the recorded borrower returns it: the
    book becomes available with no borrower and no due date (all else as
    before) and the updated collection is saved (on a writable disk the
    store then holds it; a failed write is reported and leaves the store as
    before).  A caller who is neither gets no change to any record, in
    memory or on disk, and, having been prompted, is denied with the name of
    the actual borrower. *)
Theorem return_book_checked_out (username role : string) (w : world)
    (books pre post : list book) (b : book) (book_id : Z) :
  disk w !! BOOKS_FILE = Some (Json (JBooks books)) →
  py_isdigit (py_strip (next_line w 0)) = true →
  py_int (py_strip (next_line w 0)) = Some book_id →
  first_with_id book_id books pre b post →
  status b = "Checked Out" →
  let b' := mkBook (id b) (title b) (author b) "Available" None None (summary b) in
  let updated := pre ++ b' :: post in
  let shown := visible_to username role books in
  (role = "librarian" ∨ borrower b = Some username →
     (∀ w0, (return_loop username role (id b) [] books w0).1 = Ret (true, updated))
     ∧ (disk_writable w = true →
          return_book username role w
          = (Ret tt, say (return_preamble shown ++ [Returned (title b) (borrower b)])
                         (stored BOOKS_FILE (JBooks updated) (read_lines 1 w))))
     ∧ (disk_writable w = false →
          return_book username role w
          = (Ret tt, say (return_preamble shown
                          ++ [ErrSaving BOOKS_FILE; ErrSaveReturn])
                         (read_lines 1 w))))
  ∧ (role ≠ "librarian" → borrower b ≠ Some username →
     (∀ w0, return_loop username role (id b) [] books w0
            = (Ret (true, books), say [ErrBorrowedBy (borrower b)] w0))
     ∧ disk (return_book username role w).2 = disk w
     ∧ (shown ≠ [] →
          return_book username role w
          = (Ret tt, say (return_preamble shown ++ [ErrBorrowedBy (borrower b)])
                         (read_lines 1 w)))).
Proof.
  intros Hdisk Hdigit Hint (-> & Hid & Hpre) Hst b' updated shown.
  split.
  - intros Hmay.
    assert (Hshown : visible_to username role (pre ++ b :: post) ≠ []).
    { intros Hnil.
      assert (Hin : b ∈ visible_to username role (pre ++ b :: post)).
      { apply visible_to_elem; [| done | done].
        apply elem_of_app. right. apply elem_of_cons. by left. }
      rewrite Hnil in Hin. by apply elem_of_nil in Hin. }
    split; [| split].
    + intros w0. rewrite <- Hid in Hpre.
      rewrite (return_loop_allowed username role (id b) pre b post w0 eq_refl Hpre Hst Hmay).
      by destruct (disk_writable w0).
    + intros Hw. rewrite (return_book_prompted _ _ _ _ _ Hdisk Hshown Hdigit Hint).
      unfold_monad.
      rewrite (return_loop_allowed username role _ pre b post _ Hid Hpre Hst Hmay).
      simpl disk_writable. rewrite Hw. unfold updated, b'. f_equal.
      unfold give_back. world_eq.
    + intros Hw. rewrite (return_book_prompted _ _ _ _ _ Hdisk Hshown Hdigit Hint).
      unfold_monad.
      rewrite (return_loop_allowed username role _ pre b post _ Hid Hpre Hst Hmay).
      simpl disk_writable. rewrite Hw. f_equal. world_eq.
  - intros Hrole Hb.
    assert (Hrun : shown ≠ [] → return_book username role w
      = (Ret tt, say (return_preamble shown ++ [ErrBorrowedBy (borrower b)])
                     (read_lines 1 w))).
    { intros Hshown. rewrite (return_book_prompted _ _ _ _ _ Hdisk Hshown Hdigit Hint).
      unfold_monad.
      rewrite (return_loop_denied username role _ pre b post _ Hid Hpre Hst Hrole Hb).
      simpl. f_equal. world_eq. }
    split; [| split].
    + intros w0. rewrite <- Hid in Hpre. by apply return_loop_denied.
    + destruct (decide (shown = [])) as [Hnone | Hsome].
      * rewrite return_book_nothing; [done |].
        by rewrite (stored_books_json _ _ Hdisk).
      * by rewrite (Hrun Hsome).
    + exact Hrun.
Qed.

(** ** Administration: add book *)

Lemma py_max_spec xs x :
  let m := py_max x xs in
  m ∈ x :: xs ∧ ∀ y, y ∈ x :: xs → y ≤ m.
Proof.
  unfold py_max. revert x. induction xs as [|z xs IH]; intros x; simpl.
  - split; [by left |]. intros y Hy. apply list_elem_of_singleton in Hy. lia.
  - destruct (IH (Z.max x z)) as [Hin Hle]. split.
    + apply elem_of_cons in Hin as [Hin | Hin].
      * rewrite Hin. destruct (Z.max_spec x z) as [[_ ->] | [_ ->]].
        -- right. by left.
        -- by left.
      * right. by right.
    + intros y Hy. apply elem_of_cons in Hy as [-> | Hy].
      * specialize (Hle (Z.max x z)). etrans; [apply Z.le_max_l | apply Hle; by left].
      * apply elem_of_cons in Hy as [-> | Hy].
        -- etrans; [apply Z.le_max_r | apply Hle; by left].
        -- apply Hle. by right.
Qed.


Lemma same_title_author_spec book_title book_author b :
  same_title_author book_title book_author b = true ↔ same_ci book_title book_author b.
Proof.
  unfold same_title_author, same_ci. by rewrite andb_true_iff, !String.eqb_eq.
Qed.



(** [add_book] up to its checks of what was typed. *)
Lemma add_book_run w :
  add_book w
  = (let books := stored_books w in
     let book_title := py_strip (next_line w 0) in
     let book_author := py_strip (next_line w 1) in
     let book_summary := py_strip (next_line w 2) in
     if PyStr.is_empty book_title || PyStr.is_empty book_author
     then emit ErrEmptyTitleOrAuthor
     else
       match duplicate_of book_title book_author books with
       | Some b => emit (ErrDuplicate (id b))
       | None =>
           saved ← save_data BOOKS_FILE
                     (JBooks (books ++ [mkBook (next_id books) book_title book_author
                                          "Available" None None (Some book_summary)]));
           if (saved : bool) then emit (Added book_title book_author (next_id books))
           else emit ErrSaveAdd
       end)
      (say (add_preamble w) (read_lines 3 w)).
Proof.
  unfold add_book, print_header.
  rewrite (run_bind _ _ _ _ _ (emit_say _ _)).
  rewrite (run_bind _ _ _ _ _ (load_books _)).
  rewrite (run_bind _ _ _ _ _ (run_fmap _ _ _ _ _ (input_read _ _))).
  rewrite (run_bind _ _ _ _ _ (run_fmap _ _ _ _ _ (input_read _ _))).
  rewrite (run_bind _ _ _ _ _ (run_fmap _ _ _ _ _ (input_read _ _))).
  rewrite !stored_books_say, !load_warning_say.
  cbv zeta. f_equal. unfold add_preamble. world_eq.
Qed.

Lemma not_empty_spec s : s ≠ "" → PyStr.is_empty s = false.
Proof. by destruct s. Qed.




(** ** Authentication *)

Lemma attempt_name_next es w i :
  attempt_name (say es (read_lines 2 w)) i = attempt_name w (S i).
Proof.
  unfold attempt_name, next_line. simpl. do 2 f_equal. lia.
Qed.

Lemma attempt_pass_next es w i :
  attempt_pass (say es (read_lines 2 w)) i = attempt_pass w (S i).
Proof.
  unfold attempt_pass, next_line. simpl. do 2 f_equal. lia.
Qed.

Lemma attempt_ok_next users es w i :
  attempt_ok users (say es (read_lines 2 w)) i ↔ attempt_ok users w (S i).
Proof. unfold attempt_ok. by rewrite attempt_name_next, attempt_pass_next. Qed.

(** One round of the login loop reads the two lines of the attempt. *)
Lemma login_loop_round remaining users w :
  login_loop (S remaining) users w
  = (let username := attempt_name w 0 in
     let failed : M (option (string * string)) :=
       emit (LoginInvalid remaining);;
       match remaining with
       | O => emit TooManyAttempts;; exit
       | S _ => emit Separator;; login_loop remaining users
       end in
     match users !! username with
     | Some user_data =>
         if String.eqb (password user_data) (attempt_pass w 0)
         then emit (LoginSuccessful username);;
              ret (Some (username, role user_data))
         else failed
     | None => failed
     end) (say [Ask PUsername; Ask PPassword] (read_lines 2 w)).
Proof.
  simpl login_loop.
  rewrite (run_bind _ _ _ _ _ (run_fmap _ _ _ _ _ (input_read _ _))).
  rewrite (run_bind _ _ _ _ _ (run_fmap _ _ _ _ _ (input_read _ _))).
  rewrite read_lines_say, say_say. reflexivity.
Qed.

Lemma login_loop_success remaining users w r :
  account users (attempt_name w 0) (attempt_pass w 0) r →
  login_loop (S remaining) users w
  = (Ret (Some (attempt_name w 0, r)),
     say [Ask PUsername; Ask PPassword; LoginSuccessful (attempt_name w 0)]
         (read_lines 2 w)).
Proof.
  intros (u & Hu & Hpass & Hrole). rewrite login_loop_round. cbv zeta.
  rewrite Hu, Hpass, String.eqb_refl, Hrole.
  rewrite (run_bind _ _ _ _ _ (emit_say _ _)), say_say. reflexivity.
Qed.

Lemma login_loop_failure remaining users w :
  ¬ attempt_ok users w 0 →
  login_loop (S remaining) users w
  = match remaining with
    | O => (Exited, say [Ask PUsername; Ask PPassword; LoginInvalid 0; TooManyAttempts]
                        (read_lines 2 w))
    | S _ => login_loop remaining users
               (say [Ask PUsername; Ask PPassword; LoginInvalid remaining; Separator]
                    (read_lines 2 w))
    end.
Proof.
  intros Hbad. rewrite login_loop_round. cbv zeta.
  assert (Hfail : ∀ k : M (option (string * string)),
    match users !! attempt_name w 0 with
    | Some user_data =>
        if String.eqb (password user_data) (attempt_pass w 0)
        then emit (LoginSuccessful (attempt_name w 0));;
             ret (Some (attempt_name w 0, role user_data))
        else k
    | None => k
    end = k).
  { intros k. destruct (users !! attempt_name w 0) as [u|] eqn:Hu; [| done].
    destruct (String.eqb_spec (password u) (attempt_pass w 0)) as [Hp | Hp]; [| done].
    exfalso. apply Hbad. exists (role u), u. done. }
  rewrite Hfail.
  rewrite (run_bind _ _ _ _ _ (emit_say _ _)).
  destruct remaining as [|remaining].
  - rewrite (run_bind _ _ _ _ _ (emit_say _ _)), !say_say. reflexivity.
  - rewrite (run_bind _ _ _ _ _ (emit_say _ _)), !say_say. reflexivity.
Qed.

(** The loop returns the session of the first attempt that succeeds, and
    exits when all its attempts fail. *)
Lemma login_loop_outcome remaining users w :
  (∀ i r, (i < S remaining)%nat →
     (∀ j, (j < i)%nat → ¬ attempt_ok users w j) →
     account users (attempt_name w i) (attempt_pass w i) r →
     (login_loop (S remaining) users w).1 = Ret (Some (attempt_name w i, r)))
  ∧ ((∀ i, (i < S remaining)%nat → ¬ attempt_ok users w i) →
     (login_loop (S remaining) users w).1 = Exited).
Proof.
  revert w. induction remaining as [|remaining IH]; intros w.
  - split.
    + intros i r Hi _ Hacc. assert (i = 0%nat) as -> by lia.
      by rewrite (login_loop_success _ _ _ _ Hacc).
    + intros Hall. rewrite login_loop_failure; [done |]. apply Hall. lia.
  - split.
    + intros i r Hi Hfirst Hacc. destruct i as [|i].
      * by rewrite (login_loop_success _ _ _ _ Hacc).
      * rewrite login_loop_failure by (apply Hfirst; lia).
        destruct (IH (say [Ask PUsername; Ask PPassword;
                           LoginInvalid (S remaining); Separator]
                          (read_lines 2 w))) as [IHok _].
        rewrite (IHok i r); [by rewrite attempt_name_next | lia | |].
        -- intros j Hj. rewrite attempt_ok_next. apply Hfirst. lia.
        -- by rewrite attempt_name_next, attempt_pass_next.
    + intros Hall. rewrite login_loop_failure by (apply Hall; lia).
      destruct (IH (say [Ask PUsername; Ask PPassword;
                         LoginInvalid (S remaining); Separator]
                        (read_lines 2 w))) as [_ IHbad].
      apply IHbad. intros i Hi. rewrite attempt_ok_next. apply Hall. lia.
Qed.

Lemma attempt_ok_dec users w i : attempt_ok users w i ∨ ¬ attempt_ok users w i.
Proof.
  unfold attempt_ok, account.
  destruct (users !! attempt_name w i) as [u|] eqn:Hu.
  - destruct (decide (password u = attempt_pass w i)) as [Hp | Hp].
    + left. by exists (role u), u.
    + right. intros (r & u' & Hu' & Hp' & _). congruence.
  - right. intros (r & u' & Hu' & _). congruence.
Qed.

(** Among the first [n] attempts either one is the first to succeed or
    all fail. *)
Lemma first_attempt users w n :
  (∃ i, (i < n)%nat ∧ (∀ j, (j < i)%nat → ¬ attempt_ok users w j)
        ∧ attempt_ok users w i)
  ∨ (∀ i, (i < n)%nat → ¬ attempt_ok users w i).
Proof.
  induction n as [|n IH].
  - right. intros i Hi. lia.
  - destruct IH as [(i & Hi & Hfirst & Hok) | Hall].
    + left. exists i. split; [lia | done].
    + destruct (attempt_ok_dec users w n) as [Hok | Hbad].
      * left. exists n. split; [lia |]. split; [| done].
        intros j Hj. by apply Hall.
      * right. intros i Hi. destruct (decide (i = n)) as [-> | Hne]; [done |].
        apply Hall. lia.
Qed.

Lemma load_users w users :
  disk w !! USERS_FILE = Some (Json (JUsers users)) →
  (as_users <$> load_data USERS_FILE) w = (Ret users, w).
Proof.
  intros Hdisk.
  rewrite (run_fmap _ _ _ _ _ (load_data_total _ _)).
  by rewrite (load_warning_json _ _ _ Hdisk), Hdisk, say_nil.
Qed.

(** [login] on a non-empty users store enters the loop with 3 attempts. *)
Lemma login_run w users :
  disk w !! USERS_FILE = Some (Json (JUsers users)) → users ≠ ∅ →
  login w = login_loop 3 users (say [Header "University Library Login"] w).
Proof.
  intros Hdisk Hne. unfold login, print_header.
  rewrite (run_bind _ _ _ _ _ (emit_say _ _)).
  rewrite (run_bind _ _ _ _ _
             (load_users (say [Header "University Library Login"] w) users Hdisk)).
  destruct (Nat.eqb_spec (size users) 0) as [Hsize | Hsize]; [| reflexivity].
  by apply map_size_empty_iff in Hsize.
Qed.

(** C8: on a non-empty users store, login returns (username, role)
    exactly when, among the first 3 attempts, one gives the name of a
    stored user together with that user's plaintext password (the lines
    typed being stripped by [str.strip]); the session is that of the first
    such attempt.
    When all 3 attempts fail the process exits, and only then; no other
    outcome exists. *)
Theorem login_three_attempts (w : world) (users : gmap string user) :
  disk w !! USERS_FILE = Some (Json (JUsers users)) → users ≠ ∅ →
  (∀ name r,
     (login w).1 = Ret (Some (name, r))
     ↔ ∃ i, (i < 3)%nat ∧ (∀ j, (j < i)%nat → ¬ attempt_ok users w j)
            ∧ name = attempt_name w i
            ∧ account users name (attempt_pass w i) r)
  ∧ ((login w).1 = Exited ↔ ∀ i, (i < 3)%nat → ¬ attempt_ok users w i)
  ∧ (login w).1 ≠ Ret None.
Proof.
  intros Hdisk Hne. rewrite (login_run w users Hdisk Hne).
  set (w1 := say [Header "University Library Login"] w).
  assert (Hok : ∀ i, attempt_ok users w1 i ↔ attempt_ok users w i) by done.
  destruct (login_loop_outcome 2 users w1) as [Hsucc Hexit].
  assert (Hfound : ∀ i r, (i < 3)%nat →
            (∀ j, (j < i)%nat → ¬ attempt_ok users w j) →
            account users (attempt_name w i) (attempt_pass w i) r →
            (login_loop 3 users w1).1 = Ret (Some (attempt_name w i, r))).
  { intros i r Hi Hfirst Hacc. by apply (Hsucc i r). }
  split; [| split].
  - intros name r. split.
    + intros Hret.
      destruct (first_attempt users w 3) as [(i & Hi & Hfirst & (r' & Hacc)) | Hall].
      * rewrite (Hfound i r' Hi Hfirst Hacc) in Hret.
        injection Hret as <- <-. by exists i.
      * rewrite (Hexit Hall) in Hret. discriminate Hret.
    + intros (i & Hi & Hfirst & -> & Hacc). by apply Hfound.
  - split.
    + intros Hex.
      destruct (first_attempt users w 3) as [(i & Hi & Hfirst & (r' & Hacc)) | Hall];
        [| done].
      rewrite (Hfound i r' Hi Hfirst Hacc) in Hex. discriminate Hex.
    + intros Hall. by apply Hexit.
  - destruct (first_attempt users w 3) as [(i & Hi & Hfirst & (r' & Hacc)) | Hall].
    + by rewrite (Hfound i r' Hi Hfirst Hacc).
    + by rewrite (Hexit Hall).
Qed.

(** ** The invariant of book records *)

Lemma consistent_check_out b username due : consistent (check_out b username due).
Proof. unfold consistent, check_out; simpl. repeat split; discriminate. Qed.

Lemma consistent_give_back b : consistent (give_back b).
Proof. unfold consistent, give_back; simpl. repeat split; done. Qed.

Lemma consistent_new_book new_id book_title book_author book_summary :
  consistent (mkBook new_id book_title book_author "Available" None None book_summary).
Proof. unfold consistent; simpl. repeat split; done. Qed.

Lemma consistent_replace pre b b' post :
  consistent b' → Forall consistent (pre ++ b :: post) →
  Forall consistent (pre ++ b' :: post).
Proof.
  intros Hb'. rewrite !Forall_app, !Forall_cons. tauto.
Qed.

Lemma store_consistent_stored w :
  store_consistent w ↔ Forall consistent (stored_books w).
Proof.
  unfold store_consistent, stored_books. split.
  - intros H. destruct (disk w !! BOOKS_FILE) as [[|[users|books]]|]; simpl;
      [done | done | by apply H | done].
  - intros H books Hdisk. by rewrite Hdisk in H.
Qed.

Lemma keeps_or_saves_consistent w w' :
  keeps_or_saves w w' → store_consistent w → store_consistent w'.
Proof.
  intros [Hsame | (books' & Hdisk & Hcons)] Hw.
  - unfold store_consistent. by rewrite Hsame.
  - intros books Hlook. rewrite Hdisk, lookup_insert_eq in Hlook.
    injection Hlook as <-. apply Hcons. by apply store_consistent_stored.
Qed.

(** The checkout loop leaves the disk alone or saves a collection that is
    consistent if the one it scans is; the same holds of the list it leaves
    in memory. *)
Lemma checkout_loop_keeps username book_id before rest w :
  (disk (checkout_loop username book_id before rest w).2 = disk w
   ∨ ∃ books', disk (checkout_loop username book_id before rest w).2
               = <[BOOKS_FILE := Json (JBooks books')]> (disk w)
               ∧ (Forall consistent (before ++ rest) → Forall consistent books'))
  ∧ (∀ found books',
       (checkout_loop username book_id before rest w).1 = Ret (found, books') →
       Forall consistent (before ++ rest) → Forall consistent books').
Proof.
  revert before. induction rest as [|b after IH]; intros before.
  - simpl. split; [by left |]. intros found books' [= _ <-]. by rewrite app_nil_r.
  - simpl checkout_loop. destruct (id b =? book_id).
    + destruct (String.eqb (status b) "Available").
      * unfold_monad. unfold date_today. rewrite save_data_run.
        destruct (disk_writable w) eqn:Hw; simpl.
        -- split.
           ++ right. eexists. split; [reflexivity |].
              apply consistent_replace, consistent_check_out.
           ++ intros found books' [= _ <-].
              apply consistent_replace, consistent_check_out.
        -- split; [by left |]. intros found books' [= _ <-].
           apply consistent_replace, consistent_check_out.
      * unfold_monad. simpl. split; [by left |].
        intros found books' [= _ <-]. done.
    + replace (before ++ b :: after) with ((before ++ [b]) ++ after)
        by (by rewrite <- app_assoc).
      apply IH.
Qed.

Lemma return_loop_keeps username role book_id before rest w :
  (disk (return_loop username role book_id before rest w).2 = disk w
   ∨ ∃ books', disk (return_loop username role book_id before rest w).2
               = <[BOOKS_FILE := Json (JBooks books')]> (disk w)
               ∧ (Forall consistent (before ++ rest) → Forall consistent books'))
  ∧ (∀ found books',
       (return_loop username role book_id before rest w).1 = Ret (found, books') →
       Forall consistent (before ++ rest) → Forall consistent books').
Proof.
  revert before. induction rest as [|b after IH]; intros before.
  - simpl. split; [by left |]. intros found books' [= _ <-]. by rewrite app_nil_r.
  - simpl return_loop. destruct (id b =? book_id).
    + destruct (String.eqb (status b) "Checked Out").
      * destruct (may_return username role b).
        -- unfold_monad. rewrite save_data_run.
           destruct (disk_writable w) eqn:Hw; simpl.
           ++ split.
              ** right. eexists. split; [reflexivity |].
                 apply consistent_replace, consistent_give_back.
              ** intros found books' [= _ <-].
                 apply consistent_replace, consistent_give_back.
           ++ split; [by left |]. intros found books' [= _ <-].
              apply consistent_replace, consistent_give_back.
        -- unfold_monad. simpl. split; [by left |].
           intros found books' [= _ <-]. done.
      * unfold_monad. simpl. split; [by left |].
        intros found books' [= _ <-]. done.
    + replace (before ++ b :: after) with ((before ++ [b]) ++ after)
        by (by rewrite <- app_assoc).
      apply IH.
Qed.

Lemma bind_tail_disk {A B} (m : M A) (k : A → M B) w :
  (∀ a w', disk (k a w').2 = disk w') →
  disk ((m ≫= k) w).2 = disk (m w).2.
Proof.
  intros Hk. unfold_monad. destruct (m w) as [[a|] w']; simpl; [apply Hk | done].
Qed.

(** [checkout_book] up to its test of what was typed, on any disk. *)
Lemma checkout_book_steps username w :
  ∃ es, checkout_book username w
        = (if negb (py_isdigit (py_strip (next_line w 0))) then emit ErrIdFormat
           else
             match py_int (py_strip (next_line w 0)) with
             | None => emit ErrInvalidInput
             | Some book_id =>
                 r ← checkout_loop username book_id [] (stored_books w);
                 if (r.1 : bool) then ret tt else emit (ErrNoBookWithId book_id)
             end)
            (say es (read_lines 1 w)).
Proof.
  eexists. unfold checkout_book, print_header.
  rewrite (run_bind _ _ _ _ _ (emit_say _ _)).
  rewrite (run_bind _ _ _ _ _ (load_books _)).
  rewrite (run_bind _ _ _ _ _ (view_all_books_run _)).
  rewrite (run_bind _ _ _ _ _ (run_fmap _ _ _ _ _ (input_read _ _))).
  rewrite !stored_books_say, !load_warning_say, !read_lines_say, !say_say.
  reflexivity.
Qed.

Lemma checkout_book_keeps username w :
  keeps_or_saves w (checkout_book username w).2.
Proof.
  destruct (checkout_book_steps username w) as [es ->].
  destruct (negb (py_isdigit (py_strip (next_line w 0)))); [by left |].
  destruct (py_int (py_strip (next_line w 0))) as [book_id|]; [| by left].
  unfold keeps_or_saves.
  rewrite bind_tail_disk by (intros [[] books'] w'; reflexivity).
  destruct (checkout_loop_keeps username book_id [] (stored_books w)
              (say es (read_lines 1 w))) as [Hdisk _].
  exact Hdisk.
Qed.

(** [return_book] up to its test of what was typed, when it has books to
    show, on any disk. *)
Lemma return_book_steps username role w :
  visible_to username role (stored_books w) ≠ [] →
  ∃ es, return_book username role w
        = (if negb (py_isdigit (py_strip (next_line w 0))) then emit ErrIdFormat
           else
             match py_int (py_strip (next_line w 0)) with
             | None => emit ErrInvalidInput
             | Some book_id =>
                 r ← return_loop username role book_id [] (stored_books w);
                 if (r.1 : bool) then ret tt
                 else emit (ErrNoBorrowedBookWithId book_id
                              (negb (String.eqb role "librarian")))
             end)
            (say es (read_lines 1 w)).
Proof.
  intros Hshown.
  exists (([Header "Return Book"] ++ load_warning BOOKS_FILE w ++ [BorrowedHeading]
           ++ map (fun b => ShowBook b false)
                  (visible_to username role (stored_books w)))
          ++ [Ask PReturnId]).
  rewrite return_book_run. cbv zeta.
  destruct (visible_to username role (stored_books w)) as [|v vs]; [done |].
  rewrite (run_bind _ _ _ _ _ (run_fmap _ _ _ _ _ (input_read _ _))).
  rewrite !read_lines_say, !say_say. reflexivity.
Qed.

Lemma return_book_keeps username role w :
  keeps_or_saves w (return_book username role w).2.
Proof.
  destruct (decide (visible_to username role (stored_books w) = [])) as [Hnone | Hsome].
  - rewrite (return_book_nothing _ _ _ Hnone). by left.
  - destruct (return_book_steps username role w Hsome) as [es ->].
    destruct (negb (py_isdigit (py_strip (next_line w 0)))); [by left |].
    destruct (py_int (py_strip (next_line w 0))) as [book_id|]; [| by left].
    unfold keeps_or_saves.
    rewrite bind_tail_disk by (intros [[] books'] w'; reflexivity).
    destruct (return_loop_keeps username role book_id [] (stored_books w)
                (say es (read_lines 1 w))) as [Hdisk _].
    exact Hdisk.
Qed.

Lemma add_book_keeps w : keeps_or_saves w (add_book w).2.
Proof.
  rewrite add_book_run. cbv zeta.
  destruct (PyStr.is_empty (py_strip (next_line w 0))
            || PyStr.is_empty (py_strip (next_line w 1))); [by left |].
  destruct (duplicate_of _ _ (stored_books w)); [by left |].
  unfold_monad. rewrite save_data_run. simpl disk_writable.
  destruct (disk_writable w); [| by left].
  right. eexists. split; [reflexivity |].
  intros Hcons. apply Forall_app. split; [done |].
  apply Forall_singleton, consistent_new_book.
Qed.

(** The seed catalog is consistent, whatever the day. *)
Lemma default_books_consistent day : Forall consistent (default_books day).
Proof.
  unfold default_books, consistent. repeat constructor; simpl; done.
Qed.

Lemma initialize_data_consistent w :
  store_consistent w → store_consistent (initialize_data w).2.
Proof.
  intros Hw. destruct w as [files writable kb n scr day].
  unfold store_consistent in *. simpl in Hw.
  unfold initialize_data, path_exists, date_today, save_data, write_json, emit.
  unfold_monad. simpl.
  destruct (bool_decide (is_Some (files !! USERS_FILE))); simpl.
  - destruct (bool_decide (is_Some (files !! BOOKS_FILE))) eqn:Hb; simpl;
      [done |].
    destruct writable; simpl; [| done].
    intros books Hlook. rewrite lookup_insert_eq in Hlook. injection Hlook as <-.
    apply default_books_consistent.
  - destruct writable; simpl.
    + rewrite lookup_insert_ne by done.
      destruct (bool_decide (is_Some (files !! BOOKS_FILE))) eqn:Hb; simpl.
      * intros books Hlook. rewrite lookup_insert_ne in Hlook by done. by apply Hw.
      * intros books Hlook. rewrite lookup_insert_eq in Hlook. injection Hlook as <-.
        apply default_books_consistent.
    + destruct (bool_decide (is_Some (files !! BOOKS_FILE))) eqn:Hb; simpl; done.
Qed.

(** C1: for every book record, being available, having no borrower and
    having no due date are equivalent.  This holds of the seed data and of
    the store [initialize_data] leaves, and every mutating operation keeps
    it, for the books store on disk and for the list it holds in memory:
    checkout sets the three fields together, return clears borrower and due
    date when it makes the book available, and add-book appends an available
    record without borrower or due date. *)
Theorem books_stay_consistent :
  (∀ day, Forall consistent (default_books day))
  ∧ (∀ w, store_consistent w → store_consistent (initialize_data w).2)
  ∧ (∀ username w,
       store_consistent w → store_consistent (checkout_book username w).2)
  ∧ (∀ username role w,
       store_consistent w → store_consistent (return_book username role w).2)
  ∧ (∀ w, store_consistent w → store_consistent (add_book w).2)
  ∧ (∀ username book_id books w found books',
       Forall consistent books →
       (checkout_loop username book_id [] books w).1 = Ret (found, books') →
       Forall consistent books')
  ∧ (∀ username role book_id books w found books',
       Forall consistent books →
       (return_loop username role book_id [] books w).1 = Ret (found, books') →
       Forall consistent books')
  ∧ (∀ b username due, consistent (check_out b username due))
  ∧ (∀ b, consistent (give_back b))
  ∧ (∀ new_id book_title book_author book_summary,
       consistent (mkBook new_id book_title book_author "Available" None None
                          book_summary)).
Proof.
  split; [apply default_books_consistent |].
  split; [apply initialize_data_consistent |].
  split; [intros username w; apply keeps_or_saves_consistent, checkout_book_keeps |].
  split; [intros username role w;
          apply keeps_or_saves_consistent, return_book_keeps |].
  split; [intros w; apply keeps_or_saves_consistent, add_book_keeps |].
  split.
  { intros username book_id books w found books' Hcons Hrun.
    destruct (checkout_loop_keeps username book_id [] books w) as [_ Hmem].
    by apply (Hmem found books'). }
  split.
  { intros username role book_id books w found books' Hcons Hrun.
    destruct (return_loop_keeps username role book_id [] books w) as [_ Hmem].
    by apply (Hmem found books'). }
  split; [apply consistent_check_out |].
  split; [apply consistent_give_back |].
  apply consistent_new_book.
Qed.

(** ** Scenarios *)

(** ** Further properties of checkout *)

(** [checkout_book] up to its test of what was typed, with what it has
    printed by then. *)
Lemma checkout_book_any username w :
  checkout_book username w
  = (if negb (py_isdigit (py_strip (next_line w 0))) then emit ErrIdFormat
     else
       match py_int (py_strip (next_line w 0)) with
       | None => emit ErrInvalidInput
       | Some book_id =>
           r ← checkout_loop username book_id [] (stored_books w);
           if (r.1 : bool) then ret tt else emit (ErrNoBookWithId book_id)
       end)
      (say (checkout_heading w) (read_lines 1 w)).
Proof.
  unfold checkout_book, print_header.
  rewrite (run_bind _ _ _ _ _ (emit_say _ _)).
  rewrite (run_bind _ _ _ _ _ (load_books _)).
  rewrite (run_bind _ _ _ _ _ (view_all_books_run _)).
  rewrite (run_bind _ _ _ _ _ (run_fmap _ _ _ _ _ (input_read _ _))).
  rewrite !stored_books_say, !load_warning_say, !read_lines_say, !say_say.
  unfold checkout_heading. rewrite <- !app_assoc. reflexivity.
Qed.

(** X2: when what is typed at the checkout prompt is, after stripping,
    not a string of digits for [str.isdigit], checkout reports the invalid
    format and stops; when it is one that [int] refuses with [ValueError]
    (a digit that is not decimal, a number too long to convert), checkout
    reports the invalid input and stops.  Either way one line has been
    read, nothing is written and no book is looked up. *)
Theorem checkout_book_invalid_id (username : string) (w : world) :
  (py_isdigit (py_strip (next_line w 0)) = false →
   checkout_book username w
   = (Ret tt, say (checkout_heading w ++ [ErrIdFormat]) (read_lines 1 w)))
  ∧ (py_isdigit (py_strip (next_line w 0)) = true →
     py_int (py_strip (next_line w 0)) = None →
     checkout_book username w
     = (Ret tt, say (checkout_heading w ++ [ErrInvalidInput]) (read_lines 1 w))).
Proof.
  split.
  - intros Hd. rewrite checkout_book_any, Hd. cbn [negb].
    by rewrite emit_say, say_say.
  - intros Hd Hint. rewrite checkout_book_any, Hd, Hint. cbn [negb].
    by rewrite emit_say, say_say.
Qed.

(** X3: when the line typed, stripped, is a string of digits that [int]
    converts to a number no stored book has as its id, checkout reports
    that no book has that id and changes nothing; this is also what happens
    on a missing books store and on one that is not JSON. *)
Theorem checkout_book_not_found (username : string) (w : world) (book_id : Z) :
  py_isdigit (py_strip (next_line w 0)) = true →
  py_int (py_strip (next_line w 0)) = Some book_id →
  Forall (fun b => id b ≠ book_id) (stored_books w) →
  checkout_book username w
  = (Ret tt, say (checkout_heading w ++ [ErrNoBookWithId book_id])
                 (read_lines 1 w)).
Proof.
  intros Hd Hint Hnone. rewrite checkout_book_any, Hd, Hint. cbn [negb].
  rewrite (run_bind _ _ _ _ _ (checkout_loop_not_found _ _ _ _ _ Hnone)).
  simpl. by rewrite emit_say, say_say.
Qed.

(** What one call of [checkout_book] does to the world, in every case. *)
Lemma checkout_book_effect (username : string) (w : world) :
  (checkout_book username w).1 = Ret tt
  ∧ typed (checkout_book username w).2 = S (typed w)
  ∧ (disk (checkout_book username w).2 = disk w
     ∨ ∃ pre b post,
         first_with_id (id b) (stored_books w) pre b post
         ∧ (py_isdigit (py_strip (next_line w 0)) = true
            ∧ py_int (py_strip (next_line w 0)) = Some (id b))
         ∧ status b = "Available"
         ∧ disk_writable w = true
         ∧ disk (checkout_book username w).2
           = <[BOOKS_FILE :=
                 Json (JBooks (pre ++ check_out b username
                                        (today w + BORROW_DURATION_DAYS) :: post))]>
               (disk w)).
Proof.
  rewrite checkout_book_any.
  destruct (py_isdigit (py_strip (next_line w 0))) eqn:Hd; cbn [negb];
    [| rewrite emit_say; simpl; repeat split; by left].
  destruct (py_int (py_strip (next_line w 0))) as [book_id|] eqn:Hint;
    [| rewrite emit_say; simpl; repeat split; by left].
  destruct (first_with_id_cases book_id (stored_books w))
    as [Hnone | (pre & b & post & Hfirst)].
  - rewrite (run_bind _ _ _ _ _ (checkout_loop_not_found _ _ _ _ _ Hnone)).
    simpl. repeat split. by left.
  - pose proof Hfirst as (Hbooks & Hid & Hpre). rewrite Hbooks.
    destruct (String.eqb_spec (status b) "Available") as [Hst | Hst].
    + unfold_monad.
      rewrite (checkout_loop_available username _ pre b post _ Hid Hpre Hst).
      simpl disk_writable. destruct (disk_writable w) eqn:Hw; simpl.
      * repeat split. right. exists pre, b, post. rewrite <- Hbooks.
        subst book_id. repeat split; done.
      * repeat split. by left.
    + unfold_monad.
      rewrite (checkout_loop_unavailable username _ pre b post _ Hid Hpre Hst).
      simpl. repeat split. by left.
Qed.

(** X4: whatever is typed and whatever the disk holds, checkout returns
    to the menu having read exactly one line, and either leaves the disk as
    it was or rewrites the books store with one record changed: the first
    book whose id is the number typed (a stripped line of digits that [int]
    converts to it), which was available, now checked out by the caller;
    every other record, and every other file, is as before. *)
Theorem checkout_book_frame (username : string) (w : world) :
  (checkout_book username w).1 = Ret tt
  ∧ typed (checkout_book username w).2 = S (typed w)
  ∧ (disk (checkout_book username w).2 = disk w
     ∨ ∃ pre b post,
         first_with_id (id b) (stored_books w) pre b post
         ∧ (py_isdigit (py_strip (next_line w 0)) = true
            ∧ py_int (py_strip (next_line w 0)) = Some (id b))
         ∧ status b = "Available"
         ∧ disk_writable w = true
         ∧ disk (checkout_book username w).2
           = <[BOOKS_FILE :=
                 Json (JBooks (pre ++ check_out b username
                                        (today w + BORROW_DURATION_DAYS) :: post))]>
               (disk w)).
Proof.
  destruct (checkout_book_effect username w) as (Hret & Hread & Hdisk).
  split; [exact Hret |]. split; [exact Hread | exact Hdisk].
Qed.

(** ** Further properties of return *)

Lemma return_loop_not_found username role book_id before rest w :
  Forall (fun x => id x ≠ book_id) rest →
  return_loop username role book_id before rest w = (Ret (false, before ++ rest), w).
Proof.
  intros H. rewrite <- (app_nil_r rest) at 1.
  rewrite return_loop_skip by done. reflexivity.
Qed.

Lemma return_loop_available username role book_id pre b post w :
  id b = book_id → Forall (fun x => id x ≠ book_id) pre →
  status b ≠ "Checked Out" →
  return_loop username role book_id [] (pre ++ b :: post) w
  = (Ret (true, pre ++ b :: post), say [AlreadyAvailable (title b)] w).
Proof.
  intros Hid Hpre Hst. rewrite return_loop_skip by done. simpl.
  rewrite (proj2 (Z.eqb_eq _ _) Hid).
  destruct (String.eqb_spec (status b) "Checked Out"); [contradiction |].
  reflexivity.
Qed.

(** [return_book] up to its test of what was typed, when it has books to
    show, with what it has printed by then. *)
Lemma return_book_any username role w :
  visible_to username role (stored_books w) ≠ [] →
  return_book username role w
  = (if negb (py_isdigit (py_strip (next_line w 0))) then emit ErrIdFormat
     else
       match py_int (py_strip (next_line w 0)) with
       | None => emit ErrInvalidInput
       | Some book_id =>
           r ← return_loop username role book_id [] (stored_books w);
           if (r.1 : bool) then ret tt
           else emit (ErrNoBorrowedBookWithId book_id
                        (negb (String.eqb role "librarian")))
       end)
      (say (return_heading username role w) (read_lines 1 w)).
Proof.
  intros Hshown. rewrite return_book_run. cbv zeta. unfold return_heading.
  destruct (visible_to username role (stored_books w)) as [|v vs]; [done |].
  rewrite (run_bind _ _ _ _ _ (run_fmap _ _ _ _ _ (input_read _ _))).
  rewrite !read_lines_say, !say_say, <- !app_assoc. reflexivity.
Qed.

(** X5: a return of a book that is not checked out (the first book whose
    id is the number typed, a stripped line of digits that [int] converts,
    has another status) reports that the book is already marked available
    and changes nothing.  The caller must have been shown some book to get
    to the prompt. *)
Theorem return_book_already_available (username role : string) (w : world)
    (pre post : list book) (b : book) (book_id : Z) :
  visible_to username role (stored_books w) ≠ [] →
  py_isdigit (py_strip (next_line w 0)) = true →
  py_int (py_strip (next_line w 0)) = Some book_id →
  first_with_id book_id (stored_books w) pre b post →
  status b ≠ "Checked Out" →
  return_book username role w
  = (Ret tt, say (return_heading username role w ++ [AlreadyAvailable (title b)])
                 (read_lines 1 w)).
Proof.
  intros Hshown Hd Hint (Hbooks & Hid & Hpre) Hst.
  rewrite (return_book_any _ _ _ Hshown), Hd, Hint. cbn [negb]. rewrite Hbooks.
  rewrite (run_bind _ _ _ _ _
             (return_loop_available username role _ pre b post _ Hid Hpre Hst)).
  simpl. by rewrite say_say.
Qed.

(** X6: at the return prompt, a line that, stripped, is not a string of
    digits for [str.isdigit] gets the invalid-format message; one that
    [int] refuses with [ValueError] gets the invalid-input message; and a
    number that is the id of no stored book gets the not-found message,
    worded for the caller's role ("by you" for anyone but a librarian).  In
    all three cases nothing is written. *)
Theorem return_book_unknown_id (username role : string) (w : world) :
  visible_to username role (stored_books w) ≠ [] →
  (py_isdigit (py_strip (next_line w 0)) = false →
   return_book username role w
   = (Ret tt, say (return_heading username role w ++ [ErrIdFormat]) (read_lines 1 w)))
  ∧ (py_isdigit (py_strip (next_line w 0)) = true →
     py_int (py_strip (next_line w 0)) = None →
     return_book username role w
     = (Ret tt, say (return_heading username role w ++ [ErrInvalidInput])
                    (read_lines 1 w)))
  ∧ (∀ book_id,
     py_isdigit (py_strip (next_line w 0)) = true →
     py_int (py_strip (next_line w 0)) = Some book_id →
     Forall (fun b => id b ≠ book_id) (stored_books w) →
     return_book username role w
     = (Ret tt, say (return_heading username role w
                     ++ [ErrNoBorrowedBookWithId book_id
                           (bool_decide (role ≠ "librarian"))])
                    (read_lines 1 w))).
Proof.
  intros Hshown. split; [| split].
  - intros Hd. rewrite (return_book_any _ _ _ Hshown), Hd. cbn [negb].
    by rewrite emit_say, say_say.
  - intros Hd Hint. rewrite (return_book_any _ _ _ Hshown), Hd, Hint. cbn [negb].
    by rewrite emit_say, say_say.
  - intros book_id Hd Hint Hnone.
    rewrite (return_book_any _ _ _ Hshown), Hd, Hint. cbn [negb].
    rewrite (run_bind _ _ _ _ _ (return_loop_not_found _ _ _ _ _ _ Hnone)).
    simpl. rewrite emit_say, say_say. do 4 f_equal.
    destruct (String.eqb_spec role "librarian") as [Hr | Hr]; simpl.
    + by rewrite bool_decide_false by (intros H; by apply H).
    + by rewrite bool_decide_true.
Qed.

(** What one call of [return_book] does to the world, in every case. *)
Lemma return_book_effect (username role : string) (w : world) :
  (return_book username role w).1 = Ret tt
  ∧ (typed (return_book username role w).2 = typed w
     ∨ typed (return_book username role w).2 = S (typed w))
  ∧ (disk (return_book username role w).2 = disk w
     ∨ ∃ pre b post,
         first_with_id (id b) (stored_books w) pre b post
         ∧ (py_isdigit (py_strip (next_line w 0)) = true
            ∧ py_int (py_strip (next_line w 0)) = Some (id b))
         ∧ status b = "Checked Out"
         ∧ (role = "librarian" ∨ borrower b = Some username)
         ∧ disk_writable w = true
         ∧ disk (return_book username role w).2
           = <[BOOKS_FILE := Json (JBooks (pre ++ give_back b :: post))]> (disk w)).
Proof.
  destruct (decide (visible_to username role (stored_books w) = [])) as [Hnone | Hsome].
  { rewrite (return_book_nothing _ _ _ Hnone). simpl.
    split; [done |]. split; by left. }
  rewrite (return_book_any _ _ _ Hsome).
  destruct (py_isdigit (py_strip (next_line w 0))) eqn:Hd; cbn [negb];
    [| rewrite emit_say; simpl; split; [done |]; split; [by right | by left]].
  destruct (py_int (py_strip (next_line w 0))) as [book_id|] eqn:Hint;
    [| rewrite emit_say; simpl; split; [done |]; split; [by right | by left]].
  destruct (first_with_id_cases book_id (stored_books w))
    as [Hmiss | (pre & b & post & Hfirst)].
  - rewrite (run_bind _ _ _ _ _ (return_loop_not_found _ _ _ _ _ _ Hmiss)).
    simpl. split; [done |]. split; [by right | by left].
  - pose proof Hfirst as (Hbooks & Hid & Hpre). rewrite Hbooks.
    destruct (String.eqb_spec (status b) "Checked Out") as [Hst | Hst].
    + destruct (may_return username role b) eqn:Hmay.
      * apply may_return_spec in Hmay. unfold_monad.
        rewrite (return_loop_allowed username role _ pre b post _ Hid Hpre Hst Hmay).
        simpl disk_writable. destruct (disk_writable w) eqn:Hw; simpl.
        -- split; [done |]. split; [by right |]. right.
           exists pre, b, post. rewrite <- Hbooks. subst book_id.
           repeat split; done.
        -- split; [done |]. split; [by right | by left].
      * assert (Hrole : role ≠ "librarian").
        { intros Hr. rewrite (proj2 (may_return_spec _ _ _)) in Hmay; [done | by left]. }
        assert (Hb : borrower b ≠ Some username).
        { intros Hr. rewrite (proj2 (may_return_spec _ _ _)) in Hmay; [done | by right]. }
        unfold_monad.
        rewrite (return_loop_denied username role _ pre b post _ Hid Hpre Hst Hrole Hb).
        simpl. split; [done |]. split; [by right | by left].
    + unfold_monad.
      rewrite (return_loop_available username role _ pre b post _ Hid Hpre Hst).
      simpl. split; [done |]. split; [by right | by left].
Qed.

(** X7: whatever is typed and whatever the disk holds, return comes back
    to the menu having read at most one line, and either leaves the disk as
    it was or rewrites the books store with one record changed: the first
    book whose id is the number typed (a stripped line of digits that [int]
    converts to it), which was checked out and which the caller may return
    (a librarian, or its borrower), now available with no borrower and no
    due date. *)
Theorem return_book_frame (username role : string) (w : world) :
  (return_book username role w).1 = Ret tt
  ∧ (typed (return_book username role w).2 = typed w
     ∨ typed (return_book username role w).2 = S (typed w))
  ∧ (disk (return_book username role w).2 = disk w
     ∨ ∃ pre b post,
         first_with_id (id b) (stored_books w) pre b post
         ∧ (py_isdigit (py_strip (next_line w 0)) = true
            ∧ py_int (py_strip (next_line w 0)) = Some (id b))
         ∧ status b = "Checked Out"
         ∧ (role = "librarian" ∨ borrower b = Some username)
         ∧ disk_writable w = true
         ∧ disk (return_book username role w).2
           = <[BOOKS_FILE := Json (JBooks (pre ++ give_back b :: post))]> (disk w)).
Proof.
  destruct (return_book_effect username role w) as (Hret & Hread & Hdisk).
  split; [exact Hret |]. split; [exact Hread | exact Hdisk].
Qed.

(** ** Further properties of add-book *)

(** X8: a title or an author that is empty once stripped is rejected
    before anything else is looked at: all three lines have been read, the
    message is the empty-field one even when the catalog holds a record with
    that title and author, and nothing is written. *)
Theorem add_book_empty_field (w : world) :
  py_strip (next_line w 0) = "" ∨ py_strip (next_line w 1) = "" →
  add_book w
  = (Ret tt, say (add_preamble w ++ [ErrEmptyTitleOrAuthor]) (read_lines 3 w)).
Proof.
  intros Hempty. rewrite add_book_run. cbv zeta.
  assert (Hb : PyStr.is_empty (py_strip (next_line w 0))
               || PyStr.is_empty (py_strip (next_line w 1)) = true).
  { apply orb_true_iff. destruct Hempty as [H | H]; [left | right];
      by apply is_empty_spec. }
  rewrite Hb. by rewrite emit_say, say_say.
Qed.

Lemma duplicate_of_none_inv book_title book_author books :
  duplicate_of book_title book_author books = None →
  ∀ b, b ∈ books → ¬ same_ci book_title book_author b.
Proof.
  induction books as [|x books IH]; intros Hnone b Hin Hsame.
  - by apply elem_of_nil in Hin.
  - simpl in Hnone.
    destruct (same_title_author book_title book_author x) eqn:E; [done |].
    apply elem_of_cons in Hin as [-> | Hin].
    + apply same_title_author_spec in Hsame. congruence.
    + by apply (IH Hnone b).
Qed.

(** What one call of [add_book] does to the world, in every case. *)
Lemma add_book_effect (w : world) :
  let book_title := py_strip (next_line w 0) in
  let book_author := py_strip (next_line w 1) in
  (add_book w).1 = Ret tt
  ∧ typed (add_book w).2 = (3 + typed w)%nat
  ∧ (disk (add_book w).2 = disk w
     ∨ book_title ≠ "" ∧ book_author ≠ ""
       ∧ (∀ b, b ∈ stored_books w → ¬ same_ci book_title book_author b)
       ∧ disk_writable w = true
       ∧ disk (add_book w).2
         = <[BOOKS_FILE :=
               Json (JBooks (stored_books w
                             ++ [mkBook (next_id (stored_books w)) book_title
                                        book_author "Available" None None
                                        (Some (py_strip (next_line w 2)))]))]>
             (disk w)).
Proof.
  intros book_title book_author. rewrite add_book_run. cbv zeta.
  fold book_title. fold book_author.
  destruct (PyStr.is_empty book_title) eqn:Ht; cbn [orb].
  { rewrite emit_say. simpl. repeat split. by left. }
  destruct (PyStr.is_empty book_author) eqn:Ha.
  { rewrite emit_say. simpl. repeat split. by left. }
  destruct (duplicate_of book_title book_author (stored_books w)) as [d|] eqn:Hdup.
  { rewrite emit_say. simpl. repeat split. by left. }
  unfold_monad. rewrite save_data_run. simpl disk_writable.
  destruct (disk_writable w) eqn:Hw; simpl.
  - split; [done |]. split; [done |]. right.
    split. { intros E. apply is_empty_spec in E. congruence. }
    split. { intros E. apply is_empty_spec in E. congruence. }
    split; [by apply duplicate_of_none_inv |]. done.
  - repeat split. by left.
Qed.


(** ** What the operations keep *)

Lemma stored_books_same_disk w w' : disk w' = disk w → stored_books w' = stored_books w.
Proof. intros H. unfold stored_books. by rewrite H. Qed.

Lemma stored_books_rewritten w' files books :
  disk w' = <[BOOKS_FILE := Json (JBooks books)]> files → stored_books w' = books.
Proof. intros H. unfold stored_books. by rewrite H, lookup_insert_eq. Qed.

Lemma description_check_out b username due :
  description (check_out b username due) = description b.
Proof. reflexivity. Qed.

Lemma description_give_back b : description (give_back b) = description b.
Proof. reflexivity. Qed.

Lemma map_description_replace pre b b' post :
  description b' = description b →
  map description (pre ++ b' :: post) = map description (pre ++ b :: post).
Proof. intros H. rewrite !map_app. simpl. by rewrite H. Qed.

Lemma checkout_book_descriptions username w :
  map description (stored_books (checkout_book username w).2)
  = map description (stored_books w).
Proof.
  destruct (checkout_book_effect username w)
    as (_ & _ & [Hsame | (pre & b & post & (Hbooks & _) & _ & _ & _ & Hdisk)]).
  - by rewrite (stored_books_same_disk _ _ Hsame).
  - rewrite (stored_books_rewritten _ _ _ Hdisk), Hbooks.
    by apply map_description_replace.
Qed.

Lemma return_book_descriptions username role w :
  map description (stored_books (return_book username role w).2)
  = map description (stored_books w).
Proof.
  destruct (return_book_effect username role w)
    as (_ & _ & [Hsame | (pre & b & post & (Hbooks & _) & _ & _ & _ & _ & Hdisk)]).
  - by rewrite (stored_books_same_disk _ _ Hsame).
  - rewrite (stored_books_rewritten _ _ _ Hdisk), Hbooks.
    by apply map_description_replace.
Qed.

(** X10: checkout and return never add, remove, reorder or rename a
    book: the ids, titles, authors and summaries of the stored catalog are,
    in order, what they were, for every input and every disk. *)
Theorem circulation_keeps_catalog (username role : string) (w : world) :
  map description (stored_books (checkout_book username w).2)
  = map description (stored_books w)
  ∧ map description (stored_books (return_book username role w).2)
    = map description (stored_books w)
  ∧ length (stored_books (checkout_book username w).2) = length (stored_books w)
  ∧ length (stored_books (return_book username role w).2) = length (stored_books w).
Proof.
  pose proof (checkout_book_descriptions username w) as Hc.
  pose proof (return_book_descriptions username role w) as Hr.
  split; [exact Hc |]. split; [exact Hr |]. split.
  - apply (f_equal length) in Hc. by rewrite !length_map in Hc.
  - apply (f_equal length) in Hr. by rewrite !length_map in Hr.
Qed.

Lemma map_id_description books : map id books = map (fun d => d.1.1.1) (map description books).
Proof. induction books as [|b books IH]; simpl; [done | by rewrite IH]. Qed.

(** The id given to a new record is greater than every id in use. *)
Lemma next_id_greater books b : b ∈ books → id b < next_id books.
Proof.
  intros Hin. destruct books as [|x rest]; [by apply elem_of_nil in Hin |].
  simpl. destruct (py_max_spec (map id rest) (id x)) as [_ Hmax].
  assert (id b ≤ py_max (id x) (map id rest)); [| lia].
  apply Hmax. change (id x :: map id rest) with (map id (x :: rest)).
  apply list_elem_of_fmap. by exists b.
Qed.

Lemma add_book_unique_ids w :
  NoDup (map id (stored_books w)) → NoDup (map id (stored_books (add_book w).2)).
Proof.
  intros Huniq.
  destruct (add_book_effect w) as (_ & _ & [Hsame | (_ & _ & _ & _ & Hdisk)]).
  - by rewrite (stored_books_same_disk _ _ Hsame).
  - rewrite (stored_books_rewritten _ _ _ Hdisk), map_app. simpl.
    apply NoDup_app. split; [done |]. split; [| apply NoDup_singleton].
    intros x Hx Hnew. apply list_elem_of_singleton in Hnew.
    apply list_elem_of_fmap in Hx as (b & -> & Hin).
    pose proof (next_id_greater _ _ Hin). lia.
Qed.

Lemma checkout_book_unique_ids username w :
  NoDup (map id (stored_books w)) →
  NoDup (map id (stored_books (checkout_book username w).2)).
Proof.
  intros Huniq.
  by rewrite map_id_description, checkout_book_descriptions, <- map_id_description.
Qed.

Lemma return_book_unique_ids username role w :
  NoDup (map id (stored_books w)) →
  NoDup (map id (stored_books (return_book username role w).2)).
Proof.
  intros Huniq.
  by rewrite map_id_description, return_book_descriptions, <- map_id_description.
Qed.

(** X11: ids stay unique.  When no two stored books share an id, the same
    holds after a checkout, after a return and after an add-book, whatever
    is typed: the first two keep the ids, the third gives the new record an
    id greater than all of them. *)
Theorem ids_stay_unique (username role : string) (w : world) :
  NoDup (map id (stored_books w)) →
  NoDup (map id (stored_books (checkout_book username w).2))
  ∧ NoDup (map id (stored_books (return_book username role w).2))
  ∧ NoDup (map id (stored_books (add_book w).2))
  ∧ (∀ b, b ∈ stored_books w → id b < next_id (stored_books w)).
Proof.
  intros Huniq. split; [| split; [| split]].
  - by apply checkout_book_unique_ids.
  - by apply return_book_unique_ids.
  - by apply add_book_unique_ids.
  - intros b. apply next_id_greater.
Qed.

(** X12: when the disk cannot be written, no operation changes it: the
    seeding, a checkout, a return and an add-book all leave every file as it
    was, whatever is typed. *)
Theorem failed_write_changes_nothing (username role : string) (w : world) :
  disk_writable w = false →
  disk (initialize_data w).2 = disk w
  ∧ disk (checkout_book username w).2 = disk w
  ∧ disk (return_book username role w).2 = disk w
  ∧ disk (add_book w).2 = disk w.
Proof.
  intros Hw. split; [| split; [| split]].
  - destruct w as [files writable kb n scr day]. simpl in Hw. subst writable.
    unfold initialize_data, path_exists, date_today, save_data, write_json, emit.
    unfold_monad. simpl.
    destruct (bool_decide (is_Some (files !! USERS_FILE))); simpl;
      destruct (bool_decide (is_Some (files !! BOOKS_FILE))); reflexivity.
  - destruct (checkout_book_effect username w)
      as (_ & _ & [Hsame | (pre & b & post & _ & _ & _ & Hw' & _)]); [done | congruence].
  - destruct (return_book_effect username role w)
      as (_ & _ & [Hsame | (pre & b & post & _ & _ & _ & _ & Hw' & _)]);
      [done | congruence].
  - destruct (add_book_effect w) as (_ & _ & [Hsame | (_ & _ & _ & Hw' & _)]);
      [done | congruence].
Qed.

(** X13: checkout, return and add-book write no file but the books
    store: every other file, the users store in particular, is after the
    call what it was before. *)
Theorem only_books_store_written (username role filename : string) (w : world) :
  filename ≠ BOOKS_FILE →
  disk (checkout_book username w).2 !! filename = disk w !! filename
  ∧ disk (return_book username role w).2 !! filename = disk w !! filename
  ∧ disk (add_book w).2 !! filename = disk w !! filename.
Proof.
  intros Hne. split; [| split].
  - destruct (checkout_book_effect username w)
      as (_ & _ & [-> | (pre & b & post & _ & _ & _ & _ & ->)]); [done |].
    by rewrite lookup_insert_ne.
  - destruct (return_book_effect username role w)
      as (_ & _ & [-> | (pre & b & post & _ & _ & _ & _ & _ & ->)]); [done |].
    by rewrite lookup_insert_ne.
  - destruct (add_book_effect w) as (_ & _ & [-> | (_ & _ & _ & _ & ->)]); [done |].
    by rewrite lookup_insert_ne.
Qed.

(** ** Operations that only read *)

(** [search_books] up to its test of the catalog, on any disk. *)
Lemma search_books_any w :
  search_books w
  = (match stored_books w with
     | [] => emit NoBooksToSearch
     | _ =>
         query ← (fun line => py_strip (py_lower line)) <$> input PSearchTerm;
         if PyStr.is_empty query then emit ErrEmptySearchTerm
         else
           let results := search_loop query (stored_books w) in
           match results with
           | [] => emit (NoneMatching query)
           | _ => emit (FoundMatching (length results));; display_each results true
           end
     end) (say ([Header "Search Books"] ++ load_warning BOOKS_FILE w) w).
Proof.
  unfold search_books, print_header.
  rewrite (run_bind _ _ _ _ _ (emit_say _ _)).
  rewrite (run_bind _ _ _ _ _ (load_books _)).
  rewrite !stored_books_say, !load_warning_say, !say_say. reflexivity.
Qed.

Lemma search_books_reads w :
  (search_books w).1 = Ret tt
  ∧ disk (search_books w).2 = disk w
  ∧ (typed (search_books w).2 = typed w ∨ typed (search_books w).2 = S (typed w)).
Proof.
  rewrite search_books_any.
  destruct (stored_books w) as [|b0 books] eqn:Hbooks.
  - rewrite emit_say. simpl. split; [done |]. split; [done | by left].
  - rewrite (run_bind _ _ _ _ _ (run_fmap _ _ _ _ _ (input_read _ _))).
    destruct (PyStr.is_empty _).
    + rewrite emit_say. simpl. split; [done |]. split; [done | by right].
    + cbv zeta. destruct (search_loop _ (b0 :: books)) as [|r rs].
      * rewrite emit_say. simpl. split; [done |]. split; [done | by right].
      * rewrite (run_bind _ _ _ _ _ (emit_say _ _)), display_each_say. simpl.
        split; [done |]. split; [done | by right].
Qed.

Lemma find_loop_first book_id books b :
  find_loop book_id books = Some b
  ↔ ∃ pre post, first_with_id book_id books pre b post.
Proof.
  induction books as [|x books IH]; simpl.
  - split; [done |]. intros (pre & post & Hbooks & _). by destruct pre.
  - destruct (Z.eqb_spec (id x) book_id) as [Heq | Hne].
    + split.
      * intros [= ->]. exists [], books. by repeat split.
      * intros (pre & post & Hbooks & Hid & Hpre).
        destruct pre as [|y pre]; simpl in Hbooks.
        -- by injection Hbooks as ->.
        -- injection Hbooks as -> _. apply Forall_cons in Hpre as [Hy _]. done.
    + rewrite IH. split.
      * intros (pre & post & -> & Hid & Hpre). exists (x :: pre), post.
        repeat split; [done |]. by constructor.
      * intros (pre & post & Hbooks & Hid & Hpre).
        destruct pre as [|y pre]; simpl in Hbooks.
        -- injection Hbooks as -> _. done.
        -- injection Hbooks as -> ->. apply Forall_cons in Hpre as [_ Hpre].
           exists pre, post. by repeat split.
Qed.

Lemma find_loop_none book_id books :
  find_loop book_id books = None ↔ Forall (fun b => id b ≠ book_id) books.
Proof.
  induction books as [|x books IH]; simpl.
  - split; [by constructor | done].
  - destruct (Z.eqb_spec (id x) book_id) as [Heq | Hne].
    + split; [done |]. intros H. apply Forall_cons in H as [Hx _]. done.
    + rewrite IH. split.
      * intros H. by constructor.
      * intros H. by apply Forall_cons in H as [_ H].
Qed.

(** X14: [find_book_by_id] reloads the books store and returns the first
    stored book with the id asked for, and [None] exactly when no stored
    book has it (a missing or unreadable store included); it prints at most
    the load warning and changes nothing else. *)
Theorem find_book_by_id_first (book_id : Z) (w : world) :
  ∃ r, find_book_by_id book_id w = (Ret r, say (load_warning BOOKS_FILE w) w)
       ∧ (∀ b, r = Some b
               ↔ ∃ pre post, first_with_id book_id (stored_books w) pre b post)
       ∧ (r = None ↔ Forall (fun b => id b ≠ book_id) (stored_books w)).
Proof.
  exists (find_loop book_id (stored_books w)). split; [| split].
  - unfold find_book_by_id. by rewrite (run_bind _ _ _ _ _ (load_books _)).
  - intros b. apply find_loop_first.
  - apply find_loop_none.
Qed.

(** X15: searching and listing never write: [search_books] and
    [view_all_books] return with every file as it was; the listing reads no
    line and the search at most one. *)
Theorem browsing_changes_nothing (w : world) :
  (search_books w).1 = Ret tt
  ∧ disk (search_books w).2 = disk w
  ∧ (typed (search_books w).2 = typed w ∨ typed (search_books w).2 = S (typed w))
  ∧ (view_all_books w).1 = Ret tt
  ∧ disk (view_all_books w).2 = disk w
  ∧ typed (view_all_books w).2 = typed w.
Proof.
  destruct (search_books_reads w) as (Hret & Hdisk & Hread).
  split; [exact Hret |]. split; [exact Hdisk |]. split; [exact Hread |].
  rewrite view_all_books_run. by repeat split.
Qed.

(** ** Further properties of login *)

Lemma load_users_any w :
  (as_users <$> load_data USERS_FILE) w
  = (Ret (stored_users w), say (load_warning USERS_FILE w) w).
Proof.
  rewrite (run_fmap _ _ _ _ _ (load_data_total _ _)). unfold stored_users.
  destruct (disk w !! USERS_FILE) as [[|d]|]; reflexivity.
Qed.

(** [login] up to its test of the users store, on any disk. *)
Lemma login_any w :
  login w
  = (if (size (stored_users w) =? 0)%nat then emit ErrNoUserData;; exit
     else login_loop 3 (stored_users w))
      (say ([Header "University Library Login"] ++ load_warning USERS_FILE w) w).
Proof.
  unfold login, print_header.
  rewrite (run_bind _ _ _ _ _ (emit_say _ _)).
  rewrite (run_bind _ _ _ _ _ (load_users_any _)).
  rewrite load_warning_say, say_say. reflexivity.
Qed.

(** X16: when the users store is missing, unreadable or holds no
    account, login ends the process at once: the message is printed, no
    prompt is shown, no line is read. *)
Theorem login_without_users (w : world) :
  stored_users w = ∅ →
  login w
  = (Exited, say ([Header "University Library Login"] ++ load_warning USERS_FILE w
                  ++ [ErrNoUserData]) w).
Proof.
  intros Hnone. rewrite login_any, Hnone, map_size_empty. cbn [Nat.eqb].
  rewrite (run_bind _ _ _ _ _ (emit_say _ _)), say_say, <- app_assoc. reflexivity.
Qed.

(** The login loop never writes, and reads two lines for each attempt it
    makes. *)
Lemma login_loop_reads attempts users w :
  disk (login_loop attempts users w).2 = disk w
  ∧ ∃ k, (k ≤ attempts)%nat
         ∧ typed (login_loop attempts users w).2 = (2 * k + typed w)%nat.
Proof.
  revert w. induction attempts as [|remaining IH]; intros w.
  - simpl. split; [done |]. exists 0%nat. split; [lia | done].
  - destruct (attempt_ok_dec users w 0) as [(r & Hacc) | Hbad].
    + rewrite (login_loop_success _ _ _ _ Hacc). simpl. split; [done |].
      exists 1%nat. split; [lia | done].
    + rewrite (login_loop_failure _ _ _ Hbad). destruct remaining as [|remaining].
      * simpl. split; [done |]. exists 1%nat. split; [lia | done].
      * destruct (IH (say [Ask PUsername; Ask PPassword;
                           LoginInvalid (S remaining); Separator]
                          (read_lines 2 w))) as (Hdisk & k & Hk & Htyped).
        split; [by rewrite Hdisk |]. exists (S k). split; [lia |].
        rewrite Htyped. simpl. lia.
Qed.

(** What [login] does to the world, however it ends. *)
Lemma login_effect (w : world) :
  disk (login w).2 = disk w
  ∧ ∃ k, (k ≤ 3)%nat ∧ typed (login w).2 = (2 * k + typed w)%nat.
Proof.
  rewrite login_any. destruct (size (stored_users w) =? 0)%nat.
  - rewrite (run_bind _ _ _ _ _ (emit_say _ _)). simpl. split; [done |].
    exists 0%nat. split; [lia | done].
  - destruct (login_loop_reads 3 (stored_users w)
                (say ([Header "University Library Login"]
                      ++ load_warning USERS_FILE w) w)) as (Hdisk & k & Hk & Htyped).
    split; [by rewrite Hdisk |]. exists k. split; [done | by rewrite Htyped].
Qed.

(** X17: login never writes to the disk, whether it returns a session or
    ends the process, and it reads an even number of lines, six at most. *)
Theorem login_reads_only (w : world) :
  disk (login w).2 = disk w
  ∧ ∃ k, (k ≤ 3)%nat ∧ typed (login w).2 = (2 * k + typed w)%nat.
Proof.
  destruct (login_effect w) as (Hdisk & k & Hk & Hread).
  split; [exact Hdisk |]. exists k. split; [exact Hk | exact Hread].
Qed.

(** ** Seeding *)

(** With both stores present, [initialize_data] does nothing at all. *)
Lemma initialize_data_present w :
  is_Some (disk w !! USERS_FILE) → is_Some (disk w !! BOOKS_FILE) →
  initialize_data w = (Ret tt, w).
Proof.
  intros Hu Hb. unfold initialize_data, path_exists. unfold_monad.
  rewrite (bool_decide_true _ Hu). simpl. by rewrite (bool_decide_true _ Hb).
Qed.

(** What [initialize_data] leaves on the disk, store by store. *)
Lemma initialize_data_disk w :
  disk (initialize_data w).2
  = (if bool_decide (is_Some (disk w !! BOOKS_FILE)) || negb (disk_writable w)
     then fun files => files
     else <[BOOKS_FILE := Json (JBooks (default_books (today w)))]>)
      ((if bool_decide (is_Some (disk w !! USERS_FILE)) || negb (disk_writable w)
        then fun files => files
        else <[USERS_FILE := Json (JUsers default_users)]>) (disk w)).
Proof.
  destruct w as [files writable kb n scr day].
  unfold initialize_data, path_exists, date_today, save_data, write_json, emit.
  unfold_monad. simpl.
  destruct (bool_decide (is_Some (files !! USERS_FILE))); simpl.
  - destruct (bool_decide (is_Some (files !! BOOKS_FILE))); simpl; [done |].
    by destruct writable.
  - destruct writable; simpl.
    + rewrite lookup_insert_ne by done.
      by destruct (bool_decide (is_Some (files !! BOOKS_FILE))).
    + by destruct (bool_decide (is_Some (files !! BOOKS_FILE))).
Qed.

(** X18: the seeding never overwrites: a file that exists when
    [initialize_data] runs has the same contents afterwards, and files other
    than the two stores are never created or touched.  No line is read. *)
Theorem initialize_data_keeps_existing (filename : string) (w : world) :
  is_Some (disk w !! filename) ∨ (filename ≠ USERS_FILE ∧ filename ≠ BOOKS_FILE) →
  disk (initialize_data w).2 !! filename = disk w !! filename
  ∧ typed (initialize_data w).2 = typed w.
Proof.
  intros Hkeep. split.
  - rewrite initialize_data_disk.
    destruct (bool_decide (is_Some (disk w !! BOOKS_FILE))) eqn:Hb;
      destruct (bool_decide (is_Some (disk w !! USERS_FILE))) eqn:Hu;
      destruct (disk_writable w); simpl; try done.
    + apply bool_decide_eq_false in Hu.
      rewrite lookup_insert_ne; [done |]. intros <-. by destruct Hkeep as [? | [? _]].
    + apply bool_decide_eq_false in Hb.
      rewrite lookup_insert_ne; [done |]. intros <-. by destruct Hkeep as [? | [_ ?]].
    + apply bool_decide_eq_false in Hb. apply bool_decide_eq_false in Hu.
      rewrite !lookup_insert_ne; [done | |].
      * intros <-. by destruct Hkeep as [? | [? _]].
      * intros <-. by destruct Hkeep as [? | [_ ?]].
  - destruct w as [files writable kb n scr day].
    unfold initialize_data, path_exists, date_today, save_data, write_json, emit.
    unfold_monad. simpl.
    destruct (bool_decide (is_Some (files !! USERS_FILE))); simpl;
      destruct writable; simpl;
      destruct (bool_decide (is_Some _)); reflexivity.
Qed.

(** X19: on a writable disk the seeding leaves both stores in place,
    each missing one created with its defaults (the catalog with the third
    book due five days before today), and a second run then does nothing:
    nothing printed, nothing written. *)
Theorem initialize_data_once (w : world) :
  disk_writable w = true →
  is_Some (disk (initialize_data w).2 !! USERS_FILE)
  ∧ is_Some (disk (initialize_data w).2 !! BOOKS_FILE)
  ∧ (disk w !! USERS_FILE = None →
     disk (initialize_data w).2 !! USERS_FILE = Some (Json (JUsers default_users)))
  ∧ (disk w !! BOOKS_FILE = None →
     disk (initialize_data w).2 !! BOOKS_FILE
     = Some (Json (JBooks (default_books (today w)))))
  ∧ initialize_data (initialize_data w).2 = (Ret tt, (initialize_data w).2).
Proof.
  intros Hw.
  assert (Hu : is_Some (disk (initialize_data w).2 !! USERS_FILE)).
  { rewrite initialize_data_disk, Hw.
    destruct (bool_decide (is_Some (disk w !! BOOKS_FILE))) eqn:Eb;
      destruct (bool_decide (is_Some (disk w !! USERS_FILE))) eqn:Eu; simpl.
    - by apply bool_decide_eq_true in Eu.
    - rewrite lookup_insert_eq. by eexists.
    - rewrite lookup_insert_ne by done. by apply bool_decide_eq_true in Eu.
    - rewrite lookup_insert_ne by done. rewrite lookup_insert_eq. by eexists. }
  assert (Hb : is_Some (disk (initialize_data w).2 !! BOOKS_FILE)).
  { rewrite initialize_data_disk, Hw.
    destruct (bool_decide (is_Some (disk w !! BOOKS_FILE))) eqn:Eb;
      destruct (bool_decide (is_Some (disk w !! USERS_FILE))) eqn:Eu; simpl.
    - by apply bool_decide_eq_true in Eb.
    - rewrite lookup_insert_ne by done. by apply bool_decide_eq_true in Eb.
    - rewrite lookup_insert_eq. by eexists.
    - rewrite lookup_insert_eq. by eexists. }
  split; [exact Hu |]. split; [exact Hb |]. split; [| split].
  - intros Hnone. rewrite initialize_data_disk, Hw.
    rewrite (bool_decide_false (is_Some (disk w !! USERS_FILE)))
      by (rewrite Hnone; by intros [? ?]).
    simpl. destruct (bool_decide (is_Some (disk w !! BOOKS_FILE))); simpl.
    + by rewrite lookup_insert_eq.
    + rewrite lookup_insert_ne by done. by rewrite lookup_insert_eq.
  - intros Hnone. rewrite initialize_data_disk, Hw.
    rewrite (bool_decide_false (is_Some (disk w !! BOOKS_FILE)))
      by (rewrite Hnone; by intros [? ?]).
    simpl. by rewrite lookup_insert_eq.
  - by apply initialize_data_present.
Qed.

(** ** Checkout followed by return *)

Lemma give_back_check_out b username due :
  status b = "Available" → borrower b = None → due_date b = None →
  give_back (check_out b username due) = b.
Proof.
  destruct b as [i t a s bo d su]. simpl. intros -> -> ->. reflexivity.
Qed.

(** On a writable disk, what checkout of an available book leaves. *)
Lemma checkout_book_saved username w books pre b post book_id :
  disk w !! BOOKS_FILE = Some (Json (JBooks books)) →
  disk_writable w = true →
  py_isdigit (py_strip (next_line w 0)) = true →
  py_int (py_strip (next_line w 0)) = Some book_id →
  first_with_id book_id books pre b post →
  status b = "Available" →
  let b' := check_out b username (today w + BORROW_DURATION_DAYS) in
  checkout_book username w
  = (Ret tt, say (checkout_preamble books ++ [CheckedOut (title b) (due_date b')])
                 (stored BOOKS_FILE (JBooks (pre ++ b' :: post)) (read_lines 1 w))).
Proof.
  intros Hdisk Hw Hdigit Hint (-> & Hid & Hpre) Hst b'.
  rewrite (checkout_book_run _ _ _ _ Hdisk Hdigit Hint). unfold_monad.
  rewrite (checkout_loop_available username _ pre b post _ Hid Hpre Hst).
  simpl disk_writable. rewrite Hw. f_equal. world_eq.
Qed.

(** X20: on a writable disk, checking out an available book (no
    borrower, no due date) and then returning it, by the same user or by a
    librarian, puts the books store back exactly as it was; two lines have
    been read and the return names the user as the previous borrower.  The
    two lines typed are, stripped, digits that [int] converts to the same
    number. *)
Theorem checkout_then_return (username role : string) (w : world)
    (books pre post : list book) (b : book) (book_id : Z) :
  disk w !! BOOKS_FILE = Some (Json (JBooks books)) →
  disk_writable w = true →
  py_isdigit (py_strip (next_line w 0)) = true →
  py_isdigit (py_strip (next_line w 1)) = true →
  py_int (py_strip (next_line w 0)) = Some book_id →
  py_int (py_strip (next_line w 1)) = Some book_id →
  first_with_id book_id books pre b post →
  status b = "Available" → borrower b = None → due_date b = None →
  let w1 := (checkout_book username w).2 in
  let w2 := (return_book username role w1).2 in
  stored_books w1
  = pre ++ check_out b username (today w + BORROW_DURATION_DAYS) :: post
  ∧ stored_books w2 = books
  ∧ typed w2 = (2 + typed w)%nat
  ∧ last (screen w2) = Some (Returned (title b) (Some username)).
Proof.
  intros Hdisk Hw Hd0 Hd1 Hint0 Hint1 Hfirst Hst Hbo Hdue w1 w2.
  pose proof Hfirst as (Hbooks & Hid & Hpre).
  set (b' := check_out b username (today w + BORROW_DURATION_DAYS)).
  assert (Hw1 : w1 = say (checkout_preamble books ++ [CheckedOut (title b) (due_date b')])
                         (stored BOOKS_FILE (JBooks (pre ++ b' :: post))
                                 (read_lines 1 w))).
  { unfold w1.
    by rewrite (checkout_book_saved _ _ _ _ _ _ _ Hdisk Hw Hd0 Hint0 Hfirst Hst). }
  assert (Hdisk1 : disk w1 !! BOOKS_FILE = Some (Json (JBooks (pre ++ b' :: post)))).
  { rewrite Hw1. simpl. by rewrite lookup_insert_eq. }
  assert (Hline : next_line w1 0 = next_line w 1) by (by rewrite Hw1).
  assert (Hshown : visible_to username role (pre ++ b' :: post) ≠ []).
  { intros Hnil.
    assert (Hin : b' ∈ visible_to username role (pre ++ b' :: post)).
    { apply visible_to_elem; [| done | by right].
      apply elem_of_app. right. apply elem_of_cons. by left. }
    rewrite Hnil in Hin. by apply elem_of_nil in Hin. }
  assert (Hrun : return_book username role w1
    = (Ret tt, say [Returned (title b) (Some username)]
                   (stored BOOKS_FILE (JBooks (pre ++ give_back b' :: post))
                           (say (return_preamble
                                   (visible_to username role (pre ++ b' :: post)))
                                (read_lines 1 w1))))).
  { rewrite (return_book_prompted _ _ _ _ book_id Hdisk1 Hshown)
      by (by rewrite Hline).
    unfold_monad.
    rewrite (return_loop_allowed username role _ pre b' post _ Hid Hpre eq_refl
               (or_intror eq_refl)).
    replace (disk_writable (say _ (read_lines 1 w1))) with true
      by (by rewrite Hw1). reflexivity. }
  split; [| split; [| split]].
  - by apply stored_books_json.
  - unfold w2. rewrite Hrun. unfold stored_books. simpl.
    rewrite lookup_insert_eq. simpl.
    unfold b'.
    by rewrite Hbooks,
      (give_back_check_out b username (today w + BORROW_DURATION_DAYS) Hst Hbo Hdue).
  - unfold w2. rewrite Hrun, Hw1. reflexivity.
  - unfold w2. rewrite Hrun. simpl. by rewrite last_snoc.
Qed.

(** ** The menu session *)

Lemma menu_bind {A B} (m : Menu A) (k : A → Menu B) s a s' :
  m s = (Ret a, s') → (m ≫= k) s = k a s'.
Proof. intros H. unfold mbind, Menu_bind. by rewrite H. Qed.

Lemma show_run m s :
  show m s = (Ret tt, mkSession (inner s) (transcript s ++ [Shown m])).
Proof. reflexivity. Qed.

Lemma ask_choice_run s :
  (py_strip <$> ask AskChoice) s
  = (Ret (py_strip (next_line (inner s) 0)),
     mkSession (read_lines 1 (inner s)) (transcript s ++ [Shown AskChoice])).
Proof. reflexivity. Qed.

Lemma pause_run s :
  pause_and_continue s
  = (Ret tt, mkSession (read_lines 1 (inner s)) (transcript s ++ [Shown AskContinue])).
Proof. reflexivity. Qed.

Lemma view_users_run s :
  ∃ lines, view_users s
           = (Ret tt, mkSession (say ([Header "Manage Users - View All"]
                                      ++ load_warning USERS_FILE (inner s)) (inner s))
                                (transcript s ++ lines)).
Proof.
  unfold view_users.
  destruct s as [w t]. unfold mbind, Menu_bind, lift. simpl.
  rewrite load_users_any. simpl.
  destruct (size _ =? 0)%nat; rewrite show_run; simpl;
    rewrite <- !app_assoc; unfold say; simpl; rewrite <- !app_assoc; eexists; reflexivity.
Qed.

Section Keeps.

(** A property of the world that only depends on the disk. *)
Variable P : world → Prop.
Hypothesis P_disk : ∀ w w', disk w' = disk w → P w → P w'.

(** The computation [m] keeps [P], however it ends. *)
Definition keeps {A} (m : Menu A) : Prop :=
  ∀ s, P (inner s) → P (inner (m s).2).

Lemma keeps_ret {A} (a : A) : keeps (mret a).
Proof. intros s H. exact H. Qed.

Lemma keeps_bind {A B} (m : Menu A) (k : A → Menu B) :
  keeps m → (∀ a, keeps (k a)) → keeps (m ≫= k).
Proof.
  intros Hm Hk s H. unfold mbind, Menu_bind. specialize (Hm s H).
  destruct (m s) as [[a|] s']; simpl in *; [by apply Hk | done].
Qed.

Lemma keeps_fmap {A B} (f : A → B) (m : Menu A) : keeps m → keeps (f <$> m).
Proof.
  intros Hm s H. unfold fmap, Menu_fmap. specialize (Hm s H).
  by destruct (m s) as [[a|] s'].
Qed.

Lemma keeps_lift {A} (m : M A) : (∀ w, P w → P (m w).2) → keeps (lift m).
Proof. intros Hm s H. unfold lift. simpl. by apply Hm. Qed.

Lemma keeps_lift_reader {A} (m : M A) : (∀ w, disk (m w).2 = disk w) → keeps (lift m).
Proof. intros Hm. apply keeps_lift. intros w H. by apply (P_disk w). Qed.

Lemma keeps_show m : keeps (show m).
Proof. intros s H. exact H. Qed.

Lemma keeps_ask m : keeps (ask m).
Proof. intros s H. simpl. by apply (P_disk (inner s)). Qed.

Lemma keeps_pause : keeps pause_and_continue.
Proof. unfold pause_and_continue. apply keeps_bind; [apply keeps_ask | intros; apply keeps_ret]. Qed.

Lemma keeps_view_users : keeps view_users.
Proof.
  intros s H. destruct (view_users_run s) as [lines ->]. simpl.
  by apply (P_disk (inner s)).
Qed.

(** A property that checkout, return and, for a librarian, add-book keep is
    kept by a whole session, however long and whatever is typed. *)
Lemma keeps_main_menu username role :
  (∀ w, P w → P (checkout_book username w).2) →
  (∀ w, P w → P (return_book username role w).2) →
  (role = "librarian" → ∀ w, P w → P (add_book w).2) →
  ∀ fuel, keeps (main_menu fuel username role).
Proof.
  intros Hcheckout Hreturn Hadd fuel. induction fuel as [|fuel IH].
  - apply keeps_ret.
  - simpl main_menu.
    apply keeps_bind; [apply keeps_show | intros _].
    apply keeps_bind; [apply keeps_fmap, keeps_ask | intros choice].
    assert (Hthen : ∀ m : Menu unit, keeps m →
              keeps (m;; pause_and_continue;; main_menu fuel username role)).
    { intros m Hm. apply keeps_bind; [exact Hm | intros _].
      apply keeps_bind; [apply keeps_pause | intros _; exact IH]. }
    destruct (String.eqb choice "1").
    { apply Hthen, keeps_lift_reader. intros w. apply search_books_reads. }
    destruct (String.eqb choice "2").
    { apply Hthen, keeps_lift_reader. intros w. by rewrite view_all_books_run. }
    destruct (String.eqb choice "3").
    { apply Hthen, keeps_lift, Hcheckout. }
    destruct (String.eqb choice "4").
    { apply Hthen, keeps_lift, Hreturn. }
    destruct (String.eqb choice "5" && String.eqb role "librarian") eqn:H5.
    { apply andb_true_iff in H5 as [_ Hr]. apply String.eqb_eq in Hr.
      apply Hthen, keeps_lift, Hadd, Hr. }
    destruct (String.eqb choice "6" && String.eqb role "librarian").
    { apply Hthen, keeps_view_users. }
    destruct (String.eqb choice "0").
    { apply keeps_bind; [apply keeps_show | intros _; apply keeps_ret]. }
    apply keeps_bind; [| intros _; exact IH].
    destruct (negb _ && _); apply keeps_show.
Qed.

(** The same for the whole program, given that the seeding keeps the
    property too. *)
Lemma keeps_main :
  (∀ w, P w → P (initialize_data w).2) →
  (∀ username w, P w → P (checkout_book username w).2) →
  (∀ username role w, P w → P (return_book username role w).2) →
  (∀ w, P w → P (add_book w).2) →
  ∀ fuel, keeps (main fuel).
Proof.
  intros Hinit Hcheckout Hreturn Hadd fuel. unfold main.
  apply keeps_bind; [by apply keeps_lift | intros _].
  apply keeps_bind.
  { apply keeps_lift_reader. intros w. apply login_effect. }
  intros [[active_user user_role]|]; [| apply keeps_ret].
  destruct (negb _ && negb _); [| apply keeps_ret].
  apply keeps_main_menu; [apply Hcheckout | apply Hreturn | intros _; apply Hadd].
Qed.

End Keeps.

Lemma sound_store_disk w w' : disk w' = disk w → sound_store w → sound_store w'.
Proof.
  intros Hdisk [Hcons Huniq]. split.
  - unfold store_consistent in *. by rewrite Hdisk.
  - by rewrite (stored_books_same_disk _ _ Hdisk).
Qed.

Lemma sound_store_checkout username w :
  sound_store w → sound_store (checkout_book username w).2.
Proof.
  intros [Hcons Huniq]. split.
  - apply (keeps_or_saves_consistent w); [apply checkout_book_keeps | done].
  - by apply checkout_book_unique_ids.
Qed.

Lemma sound_store_return username role w :
  sound_store w → sound_store (return_book username role w).2.
Proof.
  intros [Hcons Huniq]. split.
  - apply (keeps_or_saves_consistent w); [apply return_book_keeps | done].
  - by apply return_book_unique_ids.
Qed.

Lemma sound_store_add w : sound_store w → sound_store (add_book w).2.
Proof.
  intros [Hcons Huniq]. split.
  - apply (keeps_or_saves_consistent w); [apply add_book_keeps | done].
  - by apply add_book_unique_ids.
Qed.

(** After the seeding the books store holds what it held, or the seed
    catalog if it was missing. *)
Lemma initialize_data_books w :
  stored_books (initialize_data w).2 = stored_books w
  ∨ (stored_books w = []
     ∧ stored_books (initialize_data w).2 = default_books (today w)).
Proof.
  assert (Hafter : stored_books (initialize_data w).2
            = if bool_decide (is_Some (disk w !! BOOKS_FILE)) || negb (disk_writable w)
              then stored_books w else default_books (today w)).
  { unfold stored_books. rewrite initialize_data_disk.
    destruct (bool_decide (is_Some (disk w !! BOOKS_FILE)));
      destruct (disk_writable w);
      destruct (bool_decide (is_Some (disk w !! USERS_FILE))); simpl;
      rewrite ?lookup_insert_eq, ?(lookup_insert_ne _ USERS_FILE BOOKS_FILE) by done;
      reflexivity. }
  rewrite Hafter.
  destruct (bool_decide (is_Some (disk w !! BOOKS_FILE))) eqn:Eb; [by left |].
  destruct (disk_writable w); simpl; [| by left].
  right. split; [| done]. apply bool_decide_eq_false in Eb.
  unfold stored_books. destruct (disk w !! BOOKS_FILE) eqn:E; [| done].
  exfalso. apply Eb. by eexists.
Qed.

Lemma sound_store_initialize w :
  sound_store w → sound_store (initialize_data w).2.
Proof.
  intros [Hcons Huniq]. split; [by apply initialize_data_consistent |].
  destruct (initialize_data_books w) as [-> | [_ ->]]; [done |].
  refine (bool_decide_unpack _ _). reflexivity.
Qed.

(** X21: soundness of the books store survives any session and any run
    of the program.  If every stored record is consistent and ids are
    unique (a missing store counts), the same holds when [main_menu] stops,
    for every user, role, input and number of rounds, and when the whole
    program stops, whether by logout, by a failed login or with the menu
    still open. *)
Theorem program_keeps_store_sound (fuel : nat) (username role : string) (s : session) :
  sound_store (inner s) →
  sound_store (inner (main_menu fuel username role s).2)
  ∧ sound_store (inner (main fuel s).2).
Proof.
  intros Hsound. split.
  - apply (keeps_main_menu sound_store sound_store_disk username role); try done.
    + apply sound_store_checkout.
    + apply sound_store_return.
    + intros _. apply sound_store_add.
  - apply (keeps_main sound_store sound_store_disk); try done.
    + apply sound_store_initialize.
    + apply sound_store_checkout.
    + apply sound_store_return.
    + apply sound_store_add.
Qed.

(** X22: a session of anyone but a librarian cannot alter the catalog:
    whatever is typed, for however many rounds, the ids, titles, authors and
    summaries of the stored books are afterwards, in order, what they were. *)
Theorem student_session_keeps_catalog (fuel : nat) (username role : string)
    (s : session) :
  role ≠ "librarian" →
  map description (stored_books (inner (main_menu fuel username role s).2))
  = map description (stored_books (inner s)).
Proof.
  intros Hrole.
  apply (keeps_main_menu
           (fun w => map description (stored_books w)
                     = map description (stored_books (inner s)))); try done.
  - intros w w' Hdisk H. by rewrite (stored_books_same_disk _ _ Hdisk).
  - intros w H. by rewrite checkout_book_descriptions.
  - intros w H. by rewrite return_book_descriptions.
Qed.

(** X23: no session writes a file other than the books store: the users
    store, and any other file, is after [main_menu] what it was before, for
    every role, input and number of rounds. *)
Theorem session_writes_only_books (fuel : nat) (username role filename : string)
    (s : session) :
  filename ≠ BOOKS_FILE →
  disk (inner (main_menu fuel username role s).2) !! filename
  = disk (inner s) !! filename.
Proof.
  intros Hne.
  apply (keeps_main_menu
           (fun w => disk w !! filename = disk (inner s) !! filename)); try done.
  - intros w w' Hdisk H. by rewrite Hdisk.
  - intros w H.
    destruct (checkout_book_effect username w)
      as (_ & _ & [-> | (pre & b & post & _ & _ & _ & _ & ->)]); [done |].
    by rewrite lookup_insert_ne.
  - intros w H.
    destruct (return_book_effect username role w)
      as (_ & _ & [-> | (pre & b & post & _ & _ & _ & _ & _ & ->)]); [done |].
    by rewrite lookup_insert_ne.
  - intros _ w H.
    destruct (add_book_effect w) as (_ & _ & [-> | (_ & _ & _ & _ & ->)]); [done |].
    by rewrite lookup_insert_ne.
Qed.

Lemma next_line_read_lines w i :
  next_line (read_lines 1 w) i = next_line w (S i).
Proof. unfold next_line, read_lines. simpl. f_equal. lia. Qed.

Lemma read_lines_read_lines n w :
  read_lines n (read_lines 1 w) = read_lines (S n) w.
Proof. unfold read_lines. simpl. f_equal. lia. Qed.

Lemma not_elem_eqb (c x : string) (l : list string) :
  c ∉ l → x ∈ l → String.eqb c x = false.
Proof. intros Hc Hx. apply String.eqb_neq. intros ->. done. Qed.

Lemma main_menu_round fuel username role :
  main_menu (S fuel) username role
  = (show (MenuShown username role);;
     choice ← py_strip <$> ask AskChoice;
     if String.eqb choice "1" then
       lift search_books;; pause_and_continue;; main_menu fuel username role
     else if String.eqb choice "2" then
       lift view_all_books;; pause_and_continue;; main_menu fuel username role
     else if String.eqb choice "3" then
       lift (checkout_book username);; pause_and_continue;;
       main_menu fuel username role
     else if String.eqb choice "4" then
       lift (return_book username role);; pause_and_continue;;
       main_menu fuel username role
     else if String.eqb choice "5" && String.eqb role "librarian" then
       lift add_book;; pause_and_continue;; main_menu fuel username role
     else if String.eqb choice "6" && String.eqb role "librarian" then
       view_users;; pause_and_continue;; main_menu fuel username role
     else if String.eqb choice "0" then
       show (Goodbye username);; mret (Some tt)
     else
       (if negb (String.eqb role "librarian")
           && (String.eqb choice "5" || String.eqb choice "6")
        then show AccessDenied else show InvalidChoice);;
       main_menu fuel username role).
Proof. reflexivity. Qed.

(** One round of the menu on a choice that is skipped: a message, and the
    next round; only the line of the choice has been read. *)
Lemma main_menu_skip fuel username role s :
  skipped role (py_strip (next_line (inner s) 0)) →
  main_menu (S fuel) username role s
  = main_menu fuel username role
      (mkSession (read_lines 1 (inner s))
         (transcript s
          ++ [Shown (MenuShown username role); Shown AskChoice;
              Shown (if bool_decide (role ≠ "librarian")
                        && (String.eqb (py_strip (next_line (inner s) 0)) "5"
                            || String.eqb (py_strip (next_line (inner s) 0)) "6")
                     then AccessDenied else InvalidChoice)])).
Proof.
  intros [Hbasic Hlib]. rewrite main_menu_round.
  rewrite (menu_bind _ _ _ _ _ (show_run _ _)).
  rewrite (menu_bind _ _ _ _ _ (ask_choice_run _)). cbn [inner].
  set (c := py_strip (next_line (inner s) 0)) in *.
  rewrite (not_elem_eqb c "1" _ Hbasic) by (repeat constructor).
  rewrite (not_elem_eqb c "2" _ Hbasic) by (repeat constructor).
  rewrite (not_elem_eqb c "3" _ Hbasic) by (repeat constructor).
  rewrite (not_elem_eqb c "4" _ Hbasic) by (repeat constructor).
  rewrite (not_elem_eqb c "0" _ Hbasic) by (repeat constructor).
  destruct (String.eqb_spec role "librarian") as [Hr | Hr].
  - rewrite (not_elem_eqb c "5" _ (Hlib Hr)) by (repeat constructor).
    rewrite (not_elem_eqb c "6" _ (Hlib Hr)) by (repeat constructor).
    rewrite bool_decide_false by (intros H; by apply H). cbn [andb orb negb].
    rewrite (menu_bind _ _ _ _ _ (show_run _ _)). cbn [inner transcript].
    by rewrite <- !app_assoc.
  - rewrite !andb_false_r, bool_decide_true by done. cbn [andb negb].
    destruct (String.eqb c "5" || String.eqb c "6");
      rewrite (menu_bind _ _ _ _ _ (show_run _ _)); cbn [inner transcript];
      by rewrite <- !app_assoc.
Qed.

Lemma main_menu_logout fuel username role s :
  py_strip (next_line (inner s) 0) = "0" →
  main_menu (S fuel) username role s
  = (Ret (Some tt),
     mkSession (read_lines 1 (inner s))
       (transcript s ++ [Shown (MenuShown username role); Shown AskChoice;
                         Shown (Goodbye username)])).
Proof.
  intros Hc. rewrite main_menu_round.
  rewrite (menu_bind _ _ _ _ _ (show_run _ _)).
  rewrite (menu_bind _ _ _ _ _ (ask_choice_run _)). cbn [inner]. rewrite Hc.
  change (String.eqb "0" "1") with false. change (String.eqb "0" "2") with false.
  change (String.eqb "0" "3") with false. change (String.eqb "0" "4") with false.
  change (String.eqb "0" "5") with false. change (String.eqb "0" "6") with false.
  change (String.eqb "0" "0") with true. cbn [andb].
  rewrite (menu_bind _ _ _ _ _ (show_run _ _)). cbn [inner transcript].
  by rewrite <- !app_assoc.
Qed.

(** X24: choice 0 ends the session.  After any number of choices that
    start nothing (unknown ones, and 5 or 6 from anyone but a librarian), a
    0 makes [main_menu] return with the goodbye message, given rounds
    enough; exactly the lines of those choices have been read, and nothing
    else in the world has changed. *)
Theorem logout_after_skipped (n fuel : nat) (username role : string) (s : session) :
  (n < fuel)%nat →
  (∀ i, (i < n)%nat → skipped role (py_strip (next_line (inner s) i))) →
  py_strip (next_line (inner s) n) = "0" →
  (main_menu fuel username role s).1 = Ret (Some tt)
  ∧ inner (main_menu fuel username role s).2 = read_lines (S n) (inner s)
  ∧ last (transcript (main_menu fuel username role s).2)
    = Some (Shown (Goodbye username)).
Proof.
  revert fuel s. induction n as [|n IH]; intros fuel s Hfuel Hskip Hzero.
  - destruct fuel as [|fuel]; [lia |].
    rewrite (main_menu_logout _ _ _ _ Hzero). simpl.
    split; [done |]. split; [done |].
    match goal with
    | |- last (?t ++ [?a; ?b; ?c]) = _ =>
        replace (t ++ [a; b; c]) with ((t ++ [a; b]) ++ [c])
          by (by rewrite <- app_assoc)
    end.
    apply last_snoc.
  - destruct fuel as [|fuel]; [lia |].
    rewrite (main_menu_skip _ _ _ _ (Hskip 0%nat ltac:(lia))).
    match goal with |- context [main_menu fuel username role ?s1] =>
      destruct (IH fuel s1) as (Hret & Hinner & Hlast) end.
    + lia.
    + intros i Hi. simpl inner. rewrite next_line_read_lines. apply Hskip. lia.
    + simpl inner. by rewrite next_line_read_lines.
    + split; [exact Hret |]. split; [| exact Hlast].
      rewrite Hinner. simpl inner. apply read_lines_read_lines.
Qed.

(** X25: options 5 and 6 are closed to anyone but a librarian: such a
    choice shows the access-denied message and the menu again; add-book and
    the users listing are not run, the line of the choice is all that has
    been read and the disk is untouched. *)
Theorem librarian_options_denied (fuel : nat) (username role : string) (s : session) :
  role ≠ "librarian" →
  py_strip (next_line (inner s) 0) = "5"
  ∨ py_strip (next_line (inner s) 0) = "6" →
  main_menu (S fuel) username role s
  = main_menu fuel username role
      (mkSession (read_lines 1 (inner s))
         (transcript s ++ [Shown (MenuShown username role); Shown AskChoice;
                           Shown AccessDenied])).
Proof.
  intros Hrole Hchoice.
  rewrite main_menu_skip.
  - rewrite bool_decide_true by done.
    by destruct Hchoice as [-> | ->].
  - split; [| done]. destruct Hchoice as [-> | ->]; not_in_list.
Qed.

(** ** The program *)

Lemma lift_run {A} (m : M A) s :
  lift m s
  = ((m (inner s)).1,
     mkSession (m (inner s)).2
       (transcript s
        ++ map Printed (drop (length (screen (inner s))) (screen (m (inner s)).2)))).
Proof. reflexivity. Qed.

Lemma lift_ret {A} (m : M A) s a :
  (m (inner s)).1 = Ret a →
  lift m s
  = (Ret a,
     mkSession (m (inner s)).2
       (transcript s
        ++ map Printed (drop (length (screen (inner s))) (screen (m (inner s)).2)))).
Proof. intros H. by rewrite lift_run, H. Qed.

Lemma lift_exit {A} (m : M A) s :
  (m (inner s)).1 = Exited →
  lift m s
  = (Exited,
     mkSession (m (inner s)).2
       (transcript s
        ++ map Printed (drop (length (screen (inner s))) (screen (m (inner s)).2)))).
Proof. intros H. by rewrite lift_run, H. Qed.

Lemma menu_bind_exit {A B} (m : Menu A) (k : A → Menu B) s s' :
  m s = (Exited, s') → (m ≫= k) s = (Exited, s').
Proof. intros H. unfold mbind, Menu_bind. by rewrite H. Qed.

Lemma initialize_data_returns w : (initialize_data w).1 = Ret tt.
Proof.
  destruct w as [files writable kb n scr day].
  unfold initialize_data, path_exists, date_today, save_data, write_json, emit.
  unfold_monad. simpl.
  destruct (bool_decide (is_Some (files !! USERS_FILE))); simpl;
    destruct writable; simpl;
    destruct (bool_decide (is_Some _)); reflexivity.
Qed.

(** Every attempt failing, [login] ends the process, on any disk. *)
Lemma login_all_fail w :
  (∀ i, (i < 3)%nat → ¬ attempt_ok (stored_users w) w i) → (login w).1 = Exited.
Proof.
  intros Hall. rewrite login_any. destruct (size (stored_users w) =? 0)%nat.
  - by rewrite (run_bind _ _ _ _ _ (emit_say _ _)).
  - destruct (login_loop_outcome 2 (stored_users w)
                (say ([Header "University Library Login"]
                      ++ load_warning USERS_FILE w) w)) as [_ Hexit].
    apply Hexit. intros i Hi. by apply Hall.
Qed.

(** X26: without a successful login there is no session.  When none of
    the first three attempts gives the name and password of an account of
    the users store as the seeding leaves it (an empty store included), the
    program ends the process: the menu is never shown, whatever the number
    of rounds allowed, and the disk is as the seeding left it. *)
Theorem main_without_login (fuel : nat) (s : session) :
  let w1 := (initialize_data (inner s)).2 in
  (∀ i, (i < 3)%nat → ¬ attempt_ok (stored_users w1) w1 i) →
  (main fuel s).1 = Exited
  ∧ disk (inner (main fuel s).2) = disk w1
  ∧ ∃ printed, transcript (main fuel s).2 = transcript s ++ map Printed printed.
Proof.
  intros w1 Hall. pose proof (login_all_fail w1 Hall) as Hexit.
  assert (Hmain : ∃ printed,
            main fuel s = (Exited, mkSession (login w1).2
                                     (transcript s ++ map Printed printed))).
  { eexists. unfold main.
    rewrite (menu_bind _ _ _ _ _ (lift_ret _ _ _ (initialize_data_returns _))).
    cbv beta.
    rewrite (menu_bind_exit _ _ _ _
               (lift_exit login (mkSession w1 _) Hexit)). cbn [inner transcript].
    rewrite <- app_assoc, <- map_app. reflexivity. }
  destruct Hmain as [printed ->]. cbn [fst snd inner transcript].
  split; [done |]. split; [apply login_effect |]. by exists printed.
Qed.

(** The first attempt that succeeds gives the session [login] returns, on
    any disk. *)
Lemma login_first_success w i r :
  (i < 3)%nat →
  (∀ j, (j < i)%nat → ¬ attempt_ok (stored_users w) w j) →
  account (stored_users w) (attempt_name w i) (attempt_pass w i) r →
  (login w).1 = Ret (Some (attempt_name w i, r)).
Proof.
  intros Hi Hfirst Hacc. rewrite login_any.
  destruct (Nat.eqb_spec (size (stored_users w)) 0) as [Hsize | Hsize].
  - apply map_size_empty_iff in Hsize. destruct Hacc as (u & Hu & _).
    rewrite Hsize, lookup_empty in Hu. discriminate Hu.
  - destruct (login_loop_outcome 2 (stored_users w)
                (say ([Header "University Library Login"]
                      ++ load_warning USERS_FILE w) w)) as [Hsucc _].
    by apply (Hsucc i r).
Qed.

(** X27: the menu runs for the account that logged in, with the role the
    users store records for it, and from the disk as the seeding left it.
    An account whose name or role is the empty string logs in but gets no
    menu: the program ends at once. *)
Theorem main_after_login (fuel i : nat) (r : string) (s : session) :
  let w1 := (initialize_data (inner s)).2 in
  let name := attempt_name w1 i in
  (i < 3)%nat →
  (∀ j, (j < i)%nat → ¬ attempt_ok (stored_users w1) w1 j) →
  account (stored_users w1) name (attempt_pass w1 i) r →
  ∃ s1, inner s1 = (login w1).2
        ∧ disk (inner s1) = disk w1
        ∧ main fuel s
          = if decide (name ≠ "" ∧ r ≠ "") then main_menu fuel name r s1
            else (Ret (Some tt), s1).
Proof.
  intros w1 name Hi Hfirst Hacc.
  pose proof (login_first_success w1 i r Hi Hfirst Hacc) as Hlogin.
  eexists (mkSession (login w1).2 _). split; [reflexivity |].
  split; [apply login_effect |].
  unfold main.
  rewrite (menu_bind _ _ _ _ _ (lift_ret _ _ _ (initialize_data_returns _))).
  cbv beta.
  rewrite (menu_bind _ _ _ _ _ (lift_ret login (mkSession w1 _) _ Hlogin)).
  fold name. cbn [inner transcript].
  destruct (decide (name ≠ "" ∧ r ≠ "")) as [[Hn Hr] | Hno].
  - by rewrite (not_empty_spec _ Hn), (not_empty_spec _ Hr).
  - destruct (PyStr.is_empty name) eqn:En; [reflexivity |].
    destruct (PyStr.is_empty r) eqn:Er; [reflexivity |].
    exfalso. apply Hno. split; intros E; apply is_empty_spec in E; congruence.
Qed.

End Library.

(** ** Examples

    Runs of the program on ASCII text, where [ascii_python] gives the
    interpreter's string functions. *)

#[global] Existing Instance ascii_python.

Lemma search_books_empty_catalog_witness :
  search_books (example_world corrupt_disk ["dune"])
  = (Ret tt, say [Header "Search Books"; ErrCorruptFile BOOKS_FILE; NoBooksToSearch]
                 (example_world corrupt_disk ["dune"])).
Proof.
  apply (search_books_empty_catalog (example_world corrupt_disk ["dune"])).
  reflexivity.
Defined.

Lemma search_books_results_witness :
  search_books (example_world seeded_disk [" DUNE  "])
  = (Ret tt,
     say [Header "Search Books"; Ask PSearchTerm; FoundMatching 1;
          ShowBook (mkBook 4 "Dune" "Frank Herbert" "Available" None None
            (Some "Epic science fiction novel set on the desert planet Arrakis."))
            true]
         (read_lines 1 (example_world seeded_disk [" DUNE  "]))).
Proof.
  etrans.
  - apply (search_books_results (example_world seeded_disk [" DUNE  "])).
    vm_compute. discriminate.
  - vm_compute. reflexivity.
Defined.

Lemma checkout_book_available_witness :
  (checkout_book "alice" (example_world seeded_disk [" 4 "])).1 = Ret tt
  ∧ stored_books (checkout_book "alice" (example_world seeded_disk [" 4 "])).2
    = take 3 (default_books 739923)
      ++ [mkBook 4 "Dune" "Frank Herbert" "Checked Out" (Some "alice")
            (Some "2026-11-17")
            (Some "Epic science fiction novel set on the desert planet Arrakis.")].
Proof.
  destruct (checkout_book_available "alice" (example_world seeded_disk [" 4 "])
              (default_books 739923) (take 3 (default_books 739923)) []
              (mkBook 4 "Dune" "Frank Herbert" "Available" None None
                 (Some "Epic science fiction novel set on the desert planet Arrakis."))
              4)
    as (_ & Hsaved & _).
  - reflexivity.
  - reflexivity.
  - reflexivity.
  - repeat split. repeat constructor; discriminate.
  - reflexivity.
  - rewrite Hsaved by reflexivity. split; reflexivity.
Defined.

Lemma checkout_book_unavailable_witness :
  checkout_book "alice" (example_world seeded_disk ["3"])
  = (Ret tt, say (checkout_preamble (default_books 739923)
                  ++ [Unavailable "Sapiens: A Brief History of Humankind"
                        (Some "2026-10-29")])
                 (read_lines 1 (example_world seeded_disk ["3"]))).
Proof.
  destruct (checkout_book_unavailable "alice" (example_world seeded_disk ["3"])
              (default_books 739923) (take 2 (default_books 739923))
              (drop 3 (default_books 739923))
              (mkBook 3 "Sapiens: A Brief History of Humankind" "Yuval Noah Harari"
                 "Checked Out" (Some "student1") (Some "2026-10-29")
                 (Some "An exploration of human history from the Stone Age to the present."))
              3)
    as (_ & Hrun & _).
  - reflexivity.
  - reflexivity.
  - reflexivity.
  - repeat split. repeat constructor; discriminate.
  - discriminate.
  - exact Hrun.
Defined.

Lemma return_book_visible_subset_witness :
  return_book "mridul" "student" (example_world seeded_disk ["3"])
  = (Ret tt, say [Header "Return Book"; BorrowedHeading; NothingCheckedOutBy "mridul"]
                 (example_world seeded_disk ["3"])).
Proof.
  destruct (return_book_visible_subset "mridul" "student"
              (example_world seeded_disk ["3"])) as (_ & _ & _ & Hnone).
  destruct Hnone as (Hrun & _).
  - reflexivity.
  - exact Hrun.
Defined.

Lemma return_book_checked_out_witness :
  stored_books (return_book "admin" "librarian" (example_world lent_disk ["3"])).2
  = take 2 lent_books
    ++ mkBook 3 "Sapiens: A Brief History of Humankind" "Yuval Noah Harari"
         "Available" None None
         (Some "An exploration of human history from the Stone Age to the present.")
       :: drop 3 lent_books
  ∧ return_book "mridul" "student" (example_world lent_disk ["3"])
    = (Ret tt, say (return_preamble (drop 3 lent_books)
                    ++ [ErrBorrowedBy (Some "student1")])
                   (read_lines 1 (example_world lent_disk ["3"]))).
Proof.
  split.
  - destruct (return_book_checked_out "admin" "librarian"
                (example_world lent_disk ["3"]) lent_books
                (take 2 lent_books) (drop 3 lent_books) sapiens 3)
      as [Hallowed _].
    + reflexivity.
    + reflexivity.
    + reflexivity.
    + repeat split. repeat constructor; discriminate.
    + reflexivity.
    + destruct (Hallowed (or_introl eq_refl)) as (_ & Hsaved & _).
      rewrite Hsaved by reflexivity. reflexivity.
  - destruct (return_book_checked_out "mridul" "student"
                (example_world lent_disk ["3"]) lent_books
                (take 2 lent_books) (drop 3 lent_books) sapiens 3)
      as [_ Hdenied].
    + reflexivity.
    + reflexivity.
    + reflexivity.
    + repeat split. repeat constructor; discriminate.
    + reflexivity.
    + destruct Hdenied as (_ & _ & Hrun); [discriminate | discriminate |].
      apply Hrun. vm_compute. discriminate.
Defined.


Lemma login_three_attempts_witness :
  (login (example_world seeded_disk ["admin"; "letmein"; " admin "; "admin123"])).1
  = Ret (Some ("admin", "librarian"))
  ∧ (login (example_world seeded_disk ["admin"; "a"; "test"; "b"; "mridul"; "c";
                                       "admin"; "admin123"])).1
    = Exited.
Proof.
  split.
  - destruct (login_three_attempts
                (example_world seeded_disk ["admin"; "letmein"; " admin "; "admin123"])
                default_users) as (Hret & _ & _).
    + reflexivity.
    + intros H. apply (f_equal (fun m => m !! "admin")) in H. discriminate H.
    + apply Hret. exists 1%nat. split; [lia |]. split; [| split; [reflexivity |]].
      * intros j Hj (r & u & Hu & Hp & _). assert (j = 0%nat) as -> by lia.
        vm_compute in Hu. injection Hu as <-. discriminate Hp.
      * exists (mkUser "admin123" "librarian"). repeat split.
  - destruct (login_three_attempts
                (example_world seeded_disk ["admin"; "a"; "test"; "b"; "mridul"; "c";
                                            "admin"; "admin123"])
                default_users) as (_ & Hexit & _).
    + reflexivity.
    + intros H. apply (f_equal (fun m => m !! "admin")) in H. discriminate H.
    + apply Hexit. intros i Hi (r & u & Hu & Hp & _).
      destruct i as [|[|[|i]]]; [| | | lia];
        vm_compute in Hu; injection Hu as <-; discriminate Hp.
Defined.

Lemma books_stay_consistent_witness :
  store_consistent (checkout_book "alice" (example_world seeded_disk ["4"])).2
  ∧ store_consistent (return_book "admin" "librarian" (example_world seeded_disk ["3"])).2
  ∧ store_consistent (add_book (example_world seeded_disk ["Emma"; "Jane Austen"; ""])).2.
Proof.
  assert (Hseed : ∀ typed_lines,
            store_consistent (example_world seeded_disk typed_lines)).
  { intros typed_lines books Hlook. vm_compute in Hlook. injection Hlook as <-.
    unfold consistent. repeat constructor; simpl; done. }
  destruct books_stay_consistent as (_ & _ & Hcheckout & Hreturn & Hadd & _).
  split; [| split].
  - apply Hcheckout, Hseed.
  - apply Hreturn, Hseed.
  - apply Hadd, Hseed.
Defined.

(** Checkout of book 1 by alice, then its return by alice, then a second
    return by alice: the book is lent until 14 days from today, comes back,
    and the second return, finding nothing of hers checked out, stops
    before its prompt. *)
Example scenario_checkout_return :
  let w0 := example_world one_book_disk ["1"; "1"; "1"] in
  let w1 := (checkout_book "alice" w0).2 in
  let w2 := (return_book "alice" "student" w1).2 in
  let w3 := (return_book "alice" "student" w2).2 in
  stored_books w1
  = [mkBook 1 "Emma" "Jane Austen" "Checked Out" (Some "alice")
            (Some "2026-11-17") None]
  ∧ stored_books w2 = [one_book]
  ∧ stored_books w3 = [one_book]
  ∧ last (screen w2) = Some (Returned "Emma" (Some "alice"))
  ∧ last (screen w3) = Some (NothingCheckedOutBy "alice")
  ∧ typed w3 = typed w2.
Proof. vm_compute. repeat split. Qed.

(** On an empty catalog the first book added gets id 1, and adding the same
    title and author again is rejected, the catalog keeping its length. *)
Example scenario_add_twice :
  let w0 := example_world ∅ ["Dune"; "Herbert"; ""; "dune"; "HERBERT"; "x"] in
  let w1 := (add_book w0).2 in
  let w2 := (add_book w1).2 in
  stored_books w1 = [mkBook 1 "Dune" "Herbert" "Available" None None (Some "")]
  ∧ stored_books w2 = stored_books w1
  ∧ last (screen w2) = Some (ErrDuplicate 1).
Proof. vm_compute. repeat split. Qed.

(** A first run seeds both stores; a second run changes nothing. *)
Example scenario_initialize_twice :
  let w1 := (initialize_data (example_world ∅ [])).2 in
  disk w1 = seeded_disk ∧ disk (initialize_data w1).2 = disk w1.
Proof. vm_compute. repeat split. Qed.

Lemma checkout_book_invalid_id_witness :
  checkout_book "alice" (example_world seeded_disk ["-3"])
  = (Ret tt, say (checkout_heading (example_world seeded_disk ["-3"]) ++ [ErrIdFormat])
                 (read_lines 1 (example_world seeded_disk ["-3"])))
  ∧ checkout_book "alice" (example_world seeded_disk [long_number])
    = (Ret tt, say (checkout_heading (example_world seeded_disk [long_number])
                    ++ [ErrInvalidInput])
                   (read_lines 1 (example_world seeded_disk [long_number]))).
Proof.
  split.
  - apply (checkout_book_invalid_id "alice" (example_world seeded_disk ["-3"])).
    reflexivity.
  - apply (checkout_book_invalid_id "alice"
             (example_world seeded_disk [long_number]));
      vm_compute; reflexivity.
Defined.

Lemma checkout_book_not_found_witness :
  checkout_book "alice" (example_world corrupt_disk ["1"])
  = (Ret tt, say [Header "Checkout Book"; ErrCorruptFile BOOKS_FILE;
                  Header "Library Catalog"; ErrCorruptFile BOOKS_FILE; NoBooks;
                  Ask PCheckoutId; ErrNoBookWithId 1]
                 (read_lines 1 (example_world corrupt_disk ["1"]))).
Proof.
  apply (checkout_book_not_found "alice" (example_world corrupt_disk ["1"]) 1).
  - reflexivity.
  - reflexivity.
  - constructor.
Defined.

Lemma return_book_already_available_witness :
  return_book "admin" "librarian" (example_world seeded_disk ["4"])
  = (Ret tt, say (return_heading "admin" "librarian" (example_world seeded_disk ["4"])
                  ++ [AlreadyAvailable "Dune"])
                 (read_lines 1 (example_world seeded_disk ["4"]))).
Proof.
  apply (return_book_already_available "admin" "librarian"
           (example_world seeded_disk ["4"]) (take 3 (default_books 739923)) []
           (mkBook 4 "Dune" "Frank Herbert" "Available" None None
              (Some "Epic science fiction novel set on the desert planet Arrakis."))
           4).
  - vm_compute. discriminate.
  - reflexivity.
  - reflexivity.
  - repeat split. repeat constructor; discriminate.
  - discriminate.
Defined.

Lemma return_book_unknown_id_witness :
  return_book "student1" "student" (example_world seeded_disk ["three"])
  = (Ret tt, say (return_heading "student1" "student"
                    (example_world seeded_disk ["three"]) ++ [ErrIdFormat])
                 (read_lines 1 (example_world seeded_disk ["three"])))
  ∧ return_book "student1" "student" (example_world seeded_disk [long_number])
    = (Ret tt, say (return_heading "student1" "student"
                      (example_world seeded_disk [long_number])
                    ++ [ErrInvalidInput])
                   (read_lines 1 (example_world seeded_disk [long_number])))
  ∧ return_book "student1" "student" (example_world seeded_disk ["9"])
    = (Ret tt, say (return_heading "student1" "student"
                      (example_world seeded_disk ["9"])
                    ++ [ErrNoBorrowedBookWithId 9 true])
                   (read_lines 1 (example_world seeded_disk ["9"]))).
Proof.
  split; [| split].
  - destruct (return_book_unknown_id "student1" "student"
                (example_world seeded_disk ["three"])) as (Hbad & _ & _).
    + vm_compute. discriminate.
    + apply Hbad. reflexivity.
  - destruct (return_book_unknown_id "student1" "student"
                (example_world seeded_disk [long_number])) as (_ & Hlong & _).
    + vm_compute. discriminate.
    + apply Hlong; vm_compute; reflexivity.
  - destruct (return_book_unknown_id "student1" "student"
                (example_world seeded_disk ["9"])) as (_ & _ & Hnone).
    + vm_compute. discriminate.
    + apply (Hnone 9); [reflexivity | reflexivity |].
      repeat constructor; discriminate.
Defined.

Lemma add_book_empty_field_witness :
  add_book (example_world dune_disk ["Dune"; "   "; "a desert planet"])
  = (Ret tt, say [Header "Add New Book"; Ask PTitle; Ask PAuthor; Ask PSummary;
                  ErrEmptyTitleOrAuthor]
                 (read_lines 3 (example_world dune_disk
                                  ["Dune"; "   "; "a desert planet"]))).
Proof.
  apply (add_book_empty_field
           (example_world dune_disk ["Dune"; "   "; "a desert planet"])).
  right. reflexivity.
Defined.

Lemma ids_stay_unique_witness :
  NoDup (map id (stored_books
                   (add_book (example_world seeded_disk ["Emma"; "Jane Austen"; ""])).2)).
Proof.
  apply (ids_stay_unique "alice" "student"
           (example_world seeded_disk ["Emma"; "Jane Austen"; ""])).
  refine (bool_decide_unpack _ _). vm_compute. exact I.
Defined.

Lemma failed_write_changes_nothing_witness :
  disk (checkout_book "alice"
          (mkWorld seeded_disk false (lines ["4"]) 0 [] 739923)).2 = seeded_disk.
Proof.
  destruct (failed_write_changes_nothing "alice" "student"
              (mkWorld seeded_disk false (lines ["4"]) 0 [] 739923))
    as (_ & Hcheckout & _).
  - reflexivity.
  - exact Hcheckout.
Defined.

Lemma only_books_store_written_witness :
  disk (add_book (example_world seeded_disk ["Emma"; "Jane Austen"; ""])).2 !! USERS_FILE
  = Some (Json (JUsers default_users)).
Proof.
  destruct (only_books_store_written "alice" "student" USERS_FILE
              (example_world seeded_disk ["Emma"; "Jane Austen"; ""]))
    as (_ & _ & Hadd).
  - discriminate.
  - rewrite Hadd. reflexivity.
Defined.

Lemma login_without_users_witness :
  login (example_world corrupt_disk ["admin"; "admin123"])
  = (Exited, say [Header "University Library Login"; ErrNoUserData]
                 (example_world corrupt_disk ["admin"; "admin123"])).
Proof.
  apply (login_without_users (example_world corrupt_disk ["admin"; "admin123"])).
  reflexivity.
Defined.

Lemma initialize_data_keeps_existing_witness :
  disk (initialize_data (example_world corrupt_disk [])).2 !! BOOKS_FILE = Some Corrupt.
Proof.
  apply (initialize_data_keeps_existing BOOKS_FILE (example_world corrupt_disk [])).
  left. by eexists.
Defined.

Lemma initialize_data_once_witness :
  disk (initialize_data (example_world ∅ [])).2 !! BOOKS_FILE
  = Some (Json (JBooks (default_books 739923))).
Proof.
  destruct (initialize_data_once (example_world ∅ [])) as (_ & _ & _ & Hbooks & _).
  - reflexivity.
  - apply Hbooks. reflexivity.
Defined.

Lemma checkout_then_return_witness :
  stored_books
    (return_book "alice" "student"
       (checkout_book "alice" (example_world one_book_disk ["1"; " 01 "])).2).2
  = [one_book].
Proof.
  refine (proj1 (proj2
            (checkout_then_return "alice" "student"
               (example_world one_book_disk ["1"; " 01 "]) [one_book] [] [] one_book 1
               _ _ _ _ _ _ _ _ _ _))); try reflexivity.
  repeat split. constructor.
Defined.

Lemma program_keeps_store_sound_witness :
  sound_store
    (inner (main 9 (fresh_session
                      (example_world ∅ ["admin"; "admin123"; "5"; "Emma"; "Jane Austen";
                                        ""; ""; "3"; "5"; ""; "0"]))).2).
Proof.
  apply (program_keeps_store_sound 9 "" ""
           (fresh_session
              (example_world ∅ ["admin"; "admin123"; "5"; "Emma"; "Jane Austen";
                                ""; ""; "3"; "5"; ""; "0"]))).
  split.
  - intros books Hlook. discriminate Hlook.
  - constructor.
Defined.

Lemma student_session_keeps_catalog_witness :
  map description
    (stored_books
       (inner (main_menu 5 "mridul" "student"
                 (fresh_session
                    (example_world seeded_disk ["5"; "3"; "4"; ""; "0"]))).2))
  = map description (default_books 739923).
Proof.
  apply (student_session_keeps_catalog 5 "mridul" "student"
           (fresh_session (example_world seeded_disk ["5"; "3"; "4"; ""; "0"]))).
  discriminate.
Defined.

Lemma session_writes_only_books_witness :
  disk (inner (main_menu 5 "admin" "librarian"
                 (fresh_session
                    (example_world seeded_disk
                       ["5"; "Emma"; "Jane Austen"; ""; ""; "0"]))).2) !! USERS_FILE
  = Some (Json (JUsers default_users)).
Proof.
  rewrite (session_writes_only_books 5 "admin" "librarian" USERS_FILE
             (fresh_session
                (example_world seeded_disk ["5"; "Emma"; "Jane Austen"; ""; ""; "0"])))
    by discriminate.
  reflexivity.
Defined.

Lemma logout_after_skipped_witness :
  (main_menu 3 "mridul" "student"
     (fresh_session (example_world seeded_disk ["6"; "help"; " 0 "]))).1
  = Ret (Some tt).
Proof.
  apply (logout_after_skipped 2 3 "mridul" "student"
           (fresh_session (example_world seeded_disk ["6"; "help"; " 0 "]))).
  - lia.
  - intros i Hi. destruct i as [|[|i]]; [| | lia]; split;
      first [discriminate | vm_compute; not_in_list].
  - reflexivity.
Defined.

Lemma librarian_options_denied_witness :
  main_menu 2 "mridul" "student" (fresh_session (example_world seeded_disk [" 5 "; "0"]))
  = main_menu 1 "mridul" "student"
      (mkSession (read_lines 1 (example_world seeded_disk [" 5 "; "0"]))
         [Shown (MenuShown "mridul" "student"); Shown AskChoice; Shown AccessDenied]).
Proof.
  apply (librarian_options_denied 1 "mridul" "student"
           (fresh_session (example_world seeded_disk [" 5 "; "0"]))).
  - discriminate.
  - left. reflexivity.
Defined.

Lemma main_without_login_witness :
  (main 4 (fresh_session
             (example_world ∅ ["admin"; "a"; "admin"; "b"; "admin"; "c"; "0"]))).1
  = Exited.
Proof.
  apply (main_without_login 4
           (fresh_session
              (example_world ∅ ["admin"; "a"; "admin"; "b"; "admin"; "c"; "0"]))).
  intros i Hi (r & u & Hu & Hp & _).
  destruct i as [|[|[|i]]]; [| | | lia];
    vm_compute in Hu; injection Hu as <-; discriminate Hp.
Defined.

Lemma main_after_login_witness :
  ∃ s1, main 1 (fresh_session (example_world ∅ ["x"; "y"; "test"; "test"; "0"]))
        = main_menu 1 "test" "student" s1.
Proof.
  destruct (main_after_login 1 1 "student"
              (fresh_session (example_world ∅ ["x"; "y"; "test"; "test"; "0"])))
    as (s1 & _ & _ & Hmain).
  - lia.
  - intros j Hj (r & u & Hu & _). assert (j = 0%nat) as -> by lia.
    vm_compute in Hu. discriminate Hu.
  - exists (mkUser "test" "student"). repeat split.
  - exists s1. rewrite Hmain. reflexivity.
Defined.


Lemma find_book_by_id_first_witness :
  (find_book_by_id 3 (example_world seeded_disk [])).1 = Ret (Some sapiens).
Proof.
  destruct (find_book_by_id_first 3 (example_world seeded_disk []))
    as (r & Hrun & Hsome & _).
  rewrite Hrun. simpl. f_equal. apply Hsome.
  exists (take 2 (default_books 739923)), (drop 3 (default_books 739923)).
  repeat split. repeat constructor; discriminate.
Defined.
